(** * ADSB_110725: the aircraft state tracker

    A shallow embedding of [AdsbTracker.fetch_aircraft_data] and of the two
    groundspeed plot updaters of [ADSB_110725.py], with the properties of the
    update cycle: what a cycle appends to the cumulative series, how the
    per-aircraft tracks are trimmed and pruned, how the current-aircraft table
    is rebuilt, and what survives a cycle that fails.

    The decoded JSON payload is a value of [json]; Python dictionaries that
    are part of the tracker's state are [gmap]s, the set of identities seen
    in a cycle is a [gset].  The builtins and the library functions the
    program calls ([float], [haversine], and [str.strip] and [str.upper]
    beyond ASCII) are an interface ([PyBuiltins]), as are the checks that
    folium runs on the locations it is handed ([Folium]); the wall clock is
    an input of the cycle. *)

From stdpp Require Import gmap strings list fin_maps.
From Stdlib Require Import ZArith Lia Ascii.

#[local] Set Warnings "-clear-no-such-hyp".

Local Open Scope string_scope.
Local Open Scope list_scope.

(** ** Python values *)

(** Python numbers ([int] and [float] values), taken up to Python's [==]:
    this is what dictionary keys and set elements are compared with.
    [num_of_bool] is the number a [bool] is ([False == 0], [True == 1]). *)
Class PyNumbers := {
  num : Type;
  #[global] num_eq_dec :: EqDecision num;
  #[global] num_countable :: Countable num;
  num_of_bool : bool → num
}.

(** ** Control flow of one loop iteration *)

(** An iteration of the [for] loop runs to its end ([Next]), leaves through
    [continue], or raises. *)
Inductive step (A : Type) :=
| Next (a : A)
| Continue
| Raise.
Arguments Next {A} a.
Arguments Continue {A}.
Arguments Raise {A}.

#[global] Instance step_bind : MBind step := λ A B f m,
  match m with
  | Next a => f a
  | Continue => Continue
  | Raise => Raise
  end.

#[global] Instance step_ret : MRet step := λ A a, Next a.

Definition or_raise {A} (o : option A) : step A :=
  match o with
  | Some a => Next a
  | None => Raise
  end.

(** ** JSON values and the program *)

Section Model.
Context `{Nums : PyNumbers}.

(** What [response.json()] returns.  An object is given by the items of the
    [dict] it decodes to (one binding per key). *)
#[local] Unset Elimination Schemes.
Inductive json :=
| JNull
| JBool (b : bool)
| JNum (x : num)
| JStr (s : string)
| JArr (l : list json)
| JObj (items : list (string * json)).
#[local] Set Elimination Schemes.

(** Hashable values as dictionary keys: [None], numbers (a [bool] is the
    number it equals) and strings. *)
Inductive Key :=
| KNone
| KNum (x : num)
| KStr (s : string).

#[global] Instance Key_eq_dec : EqDecision Key.
Proof. solve_decision. Defined.

Definition Key_to_sum (k : Key) : option (num + string) :=
  match k with
  | KNone => None
  | KNum x => Some (inl x)
  | KStr s => Some (inr s)
  end.

Definition Key_of_sum (o : option (num + string)) : Key :=
  match o with
  | None => KNone
  | Some (inl x) => KNum x
  | Some (inr s) => KStr s
  end.

#[global] Instance Key_countable : Countable Key.
Proof.
  apply (inj_countable' Key_to_sum Key_of_sum).
  intros []; reflexivity.
Defined.

(** [hash(v)]: lists and dicts are unhashable ([TypeError]). *)
Definition hashable (v : json) : option Key :=
  match v with
  | JNull => Some KNone
  | JBool b => Some (KNum (num_of_bool b))
  | JNum x => Some (KNum x)
  | JStr s => Some (KStr s)
  | JArr _ | JObj _ => None
  end.

(** ** Builtins and library calls *)

Fixpoint assoc (k : string) (items : list (string * json)) : option json :=
  match items with
  | [] => None
  | (k', v) :: rest => if decide (k' = k) then Some v else assoc k rest
  end.

(** [d.get(k, dflt)]: only a [dict] has [get] ([AttributeError] otherwise). *)
Definition dict_get (d : json) (k : string) (dflt : json) : step json :=
  match d with
  | JObj items => Next (default dflt (assoc k items))
  | _ => Raise
  end.

(** [v is None] *)
Definition is_None (v : json) : bool :=
  match v with
  | JNull => true
  | _ => false
  end.

(** [v == s] for a string literal [s] *)
Definition eq_str (v : json) (s : string) : bool :=
  match v with
  | JStr t => bool_decide (t = s)
  | _ => false
  end.

(** Iterating a value in a [for]: a list gives its elements, a dict its
    keys, a string its characters; anything else is not iterable. *)
Definition py_iter (v : json) : step (list json) :=
  match v with
  | JArr l => Next l
  | JObj items => Next ((λ kv, JStr kv.1) <$> items)
  | JStr s => Next ((λ c, JStr (String c EmptyString)) <$> String.list_ascii_of_string s)
  | _ => Raise
  end.

(** An ASCII text: every character has a code below 128. *)
Definition is_ascii (s : string) : bool :=
  forallb (λ c, Nat.ltb (nat_of_ascii c) 128) (String.list_ascii_of_string s).

(** [s.strip()] on an ASCII text: the white space of ASCII is the
    characters 9 to 13 and 28 to 32. *)
Definition is_space (c : ascii) : bool :=
  let n := nat_of_ascii c in
  (Nat.leb 9 n && Nat.leb n 13) || (Nat.leb 28 n && Nat.leb n 32).

Fixpoint lstrip (s : list ascii) : list ascii :=
  match s with
  | c :: s' => if is_space c then lstrip s' else s
  | [] => []
  end.

Definition strip_ascii (s : string) : string :=
  String.string_of_list_ascii
    (reverse (lstrip (reverse (lstrip (String.list_ascii_of_string s))))).

(** [s.upper()] on an ASCII text: the small letters are [a] to [z]. *)
Definition upper_char (c : ascii) : ascii :=
  let n := nat_of_ascii c in
  if Nat.leb 97 n && Nat.leb n 122 then ascii_of_nat (n - 32) else c.

Definition upper_ascii (s : string) : string :=
  String.string_of_list_ascii (upper_char <$> String.list_ascii_of_string s).

(** [l[start:]] with Python's treatment of a negative or too large start. *)
Definition slice_from {A} (start : Z) (l : list A) : list A :=
  let len := Z.of_nat (length l) in
  let lo := if (start <? 0)%Z then Z.max 0 (start + len) else Z.min start len in
  drop (Z.to_nat lo) l.

(** The last [n] elements of [l] (all of [l] when it has fewer). *)
Definition most_recent {A} (n : nat) (l : list A) : list A :=
  drop (length l - n) l.

(** The calls whose code is outside the repository:
    - [float_of_num x] is [float(x)] for a number ([None]: [OverflowError]);
    - [float_of_str s] is [float(s)] for a string ([None]: [ValueError]);
    - [strip_unicode s] is [s.strip()] and [upper_unicode s] is
      [s.upper()] for a text that has characters beyond ASCII: what is white
      space there, and what the capital of a letter is, is read from the
      Unicode tables;
    - [haversine p q] is [haversine(p, q, unit=Unit.MILES)] ([None]: the
      call raises, as it does on operands that are not numbers). *)
Class PyBuiltins := {
  float_of_num : num → option num;
  float_of_str : string → option num;
  strip_unicode : string → string;
  upper_unicode : string → string;
  haversine : num * num → json * json → option num
}.

Context `{Builtins : PyBuiltins}.

(** [s.strip()] and [s.upper()]: written out for an ASCII text, taken from
    the interface for any other. *)
Definition strip (s : string) : string :=
  if is_ascii s then strip_ascii s else strip_unicode s.

Definition upper (s : string) : string :=
  if is_ascii s then upper_ascii s else upper_unicode s.

(** [v.strip()]: only a [str] has [strip]. *)
Definition py_strip (v : json) : step string :=
  match v with
  | JStr s => Next (strip s)
  | _ => Raise
  end.

Inductive float_result :=
| FloatOk (x : num)
| FloatValueError
| FloatOtherError.

(** [float(v)]: a string that is not a number text is a [ValueError];
    [None], a list or a dict is a [TypeError]. *)
Definition py_float (v : json) : float_result :=
  match v with
  | JNull => FloatOtherError
  | JBool b => from_option FloatOk FloatOtherError (float_of_num (num_of_bool b))
  | JNum x => from_option FloatOk FloatOtherError (float_of_num x)
  | JStr s => from_option FloatOk FloatValueError (float_of_str s)
  | JArr _ | JObj _ => FloatOtherError
  end.

(** ** Configuration *)

Record Config := {
  RECEIVER_LAT : num;
  RECEIVER_LON : num;
  MAX_TRACK_POINTS : Z;
  KEEP_ALL_TRACKS : Z
}.

(** ** The tracker's state *)

(** A value of [current_aircraft]: the dict literal built in the loop. *)
Record Entry := {
  e_lat : json;
  e_lon : json;
  e_alt : num;
  e_flight : string;
  e_gs : json
}.

(** A track: positions, oldest first. *)
Local Abbreviation Track := (list (json * json)).

(** The data attributes of [AdsbTracker] that [fetch_aircraft_data] uses. *)
Record AdsbTracker := {
  all_distances : list num;
  all_altitudes : list num;
  all_groundspeeds : list (option num);
  current_aircraft : gmap Key Entry;
  aircraft_tracks : gmap Key Track
}.

(** [AdsbTracker.__init__] *)
Definition init : AdsbTracker := {|
  all_distances := [];
  all_altitudes := [];
  all_groundspeeds := [];
  current_aircraft := ∅;
  aircraft_tracks := ∅
|}.

(** The local variables of one call of [fetch_aircraft_data]. *)
Record Locals := {
  new_distances : list num;
  new_altitudes : list num;
  new_groundspeeds : list (option num);
  temp_aircraft_seen : gmap Key Entry;
  current_hex_codes : gset Key
}.

Definition fresh_locals : Locals := {|
  new_distances := [];
  new_altitudes := [];
  new_groundspeeds := [];
  temp_aircraft_seen := ∅;
  current_hex_codes := ∅
|}.

(** ** The body of the [for ac in ...] loop *)

Section Cycle.
Variable cfg : Config.

(** [if len(track) > MAX_TRACK_POINTS: track = track[-MAX_TRACK_POINTS:]] *)
Definition limit_track (track : Track) : Track :=
  if (MAX_TRACK_POINTS cfg <? Z.of_nat (length track))%Z
  then slice_from (- MAX_TRACK_POINTS cfg) track
  else track.

(** One iteration, statement by statement.  [now] is what
    [str(time.time())] evaluates to in this iteration; [tracks] is
    [self.aircraft_tracks], the only attribute of [self] the loop writes. *)
Definition loop_body (now : string) (ac : json)
    (st : Locals * gmap Key Track) : step (Locals * gmap Key Track) :=
  let '(loc, tracks) := st in
  lat ← dict_get ac "lat" JNull;
  lon ← dict_get ac "lon" JNull;
  alt_geom ← dict_get ac "alt_geom" JNull;
  alt ← dict_get ac "alt_baro" alt_geom;
  if is_None lat || is_None lon || is_None alt then Continue else
  let alt := if eq_str alt "ground" then JNum (num_of_bool false) else alt in
  alt_ft ← match py_float alt with
           | FloatOk x => Next x
           | FloatValueError => Continue
           | FloatOtherError => Raise
           end;
  dist_miles ← or_raise (haversine (RECEIVER_LAT cfg, RECEIVER_LON cfg) (lat, lon));
  gs_val ← dict_get ac "gs" JNull;
  gs_float ← (if negb (is_None gs_val) && negb (eq_str gs_val "N/A")
              then match py_float gs_val with
                   | FloatOk x => Next (Some x)
                   | FloatValueError => Next None
                   | FloatOtherError => Raise
                   end
              else Next None);
  let new_distances' := new_distances loc ++ [dist_miles] in
  let new_altitudes' := new_altitudes loc ++ [alt_ft] in
  let new_groundspeeds' := new_groundspeeds loc ++ [gs_float] in
  hex_val ← dict_get ac "hex" (JStr now);
  hex_code ← or_raise (hashable hex_val);
  let current_hex_codes' := {[hex_code]} ∪ current_hex_codes loc in
  flight_val ← dict_get ac "flight" (JStr "N/A");
  flight ← py_strip flight_val;
  gs_raw ← dict_get ac "gs" (JStr "N/A");
  let temp_aircraft_seen' :=
    <[hex_code := {| e_lat := lat; e_lon := lon; e_alt := alt_ft;
                     e_flight := flight; e_gs := gs_raw |}]>
      (temp_aircraft_seen loc) in
  let track := default [] (tracks !! hex_code) in
  (* [append] is in place, on the list the dict holds; nothing can raise
     between it and the assignment that stores the limited track *)
  let track := track ++ [(lat, lon)] in
  let track := limit_track track in
  Next ({| new_distances := new_distances';
           new_altitudes := new_altitudes';
           new_groundspeeds := new_groundspeeds';
           temp_aircraft_seen := temp_aircraft_seen';
           current_hex_codes := current_hex_codes' |},
        <[hex_code := track]> tracks).

(** The loop over the records.  [clock i] is the reading of the clock, as a
    string, in the iteration on record [i] of the collection.  The result is
    the locals and the tracks when the loop is left, and whether it was left
    normally ([true]) or by an exception ([false]). *)
Fixpoint for_each_aircraft (clock : nat → string) (i : nat) (acs : list json)
    (st : Locals * gmap Key Track) : Locals * gmap Key Track * bool :=
  match acs with
  | [] => (st, true)
  | ac :: rest =>
      match loop_body (clock i) ac st with
      | Next st' => for_each_aircraft clock (S i) rest st'
      | Continue => for_each_aircraft clock (S i) rest st
      | Raise => (st, false)
      end
  end.

(** [data.get('aircraft', [])], as the sequence the loop iterates over. *)
Definition aircraft_of (data : json) : step (list json) :=
  acs ← dict_get data "aircraft" (JArr []);
  py_iter acs.

(** The pruning loop: [del] every tracked key that is not in the set. *)
Definition prune (seen : gset Key) (tracks : gmap Key Track) : gmap Key Track :=
  foldl (λ m hex_code, if decide (hex_code ∈ seen) then m else delete hex_code m)
        tracks (elements (dom tracks)).

(** [fetch_aircraft_data].  [response] is [None] when [requests.get],
    [raise_for_status] or [response.json()] raises, and the decoded payload
    otherwise.  Returns the tracker afterwards and the method's result. *)
Definition fetch_aircraft_data (response : option json) (clock : nat → string)
    (self : AdsbTracker) : AdsbTracker * bool :=
  match response with
  | None => (self, false)
  | Some data =>
      match aircraft_of data with
      | Next acs =>
          match for_each_aircraft clock 0 acs (fresh_locals, aircraft_tracks self) with
          | (loc, tracks, true) =>
              ({| all_distances := all_distances self ++ new_distances loc;
                  all_altitudes := all_altitudes self ++ new_altitudes loc;
                  all_groundspeeds := all_groundspeeds self ++ new_groundspeeds loc;
                  current_aircraft := temp_aircraft_seen loc;
                  aircraft_tracks :=
                    if decide (KEEP_ALL_TRACKS cfg = 0%Z)
                    then prune (current_hex_codes loc) tracks
                    else tracks |}, true)
          | (_, tracks, false) =>
              ({| all_distances := all_distances self;
                  all_altitudes := all_altitudes self;
                  all_groundspeeds := all_groundspeeds self;
                  current_aircraft := current_aircraft self;
                  aircraft_tracks := tracks |}, false)
          end
      | _ => (self, false)
      end
  end.

(** ** The groundspeed plots *)

(** [valid_data] of [update_scatter_gs_plot] *)
Definition valid_data (self : AdsbTracker) : list (option num * num) :=
  filter (λ p, p.1 ≠ None) (zip (all_groundspeeds self) (all_altitudes self)).

(** What [update_scatter_gs_plot] hands to [scatter]: [plot_gs] and
    [plot_alt], or nothing when [valid_data] is empty. *)
Definition update_scatter_gs_plot (self : AdsbTracker)
    : option (list (option num) * list num) :=
  match valid_data self with
  | [] => None
  | vd => Some (vd.*1, vd.*2)
  end.

(** [valid_gs] of [update_hist_gs_plot] *)
Definition valid_gs (self : AdsbTracker) : list (option num) :=
  filter (λ gs, gs ≠ None) (all_groundspeeds self).

(** What [update_hist_gs_plot] hands to [hist], or nothing when [valid_gs]
    is empty. *)
Definition update_hist_gs_plot (self : AdsbTracker) : option (list (option num)) :=
  match valid_gs self with
  | [] => None
  | vg => Some vg
  end.

(** ** Runs *)

(** What one cycle receives from outside: the response and the clock. *)
Definition CycleInput : Type := option json * (nat → string).

Definition cycle (self : AdsbTracker) (inp : CycleInput) : AdsbTracker :=
  (fetch_aircraft_data inp.1 inp.2 self).1.

Definition cycle_ok (self : AdsbTracker) (inp : CycleInput) : bool :=
  (fetch_aircraft_data inp.1 inp.2 self).2.

(** The tracker after the cycles [inps], from [__init__]. *)
Definition run (inps : list CycleInput) : AdsbTracker :=
  foldl cycle init inps.

(** ** The loop, one observation at a time

    What one iteration reads from its record, separated from what it writes:
    [observe] is the reading part of [loop_body] (same order, same exits) and
    [record_observation] the writing part.  [loop_body_observe] below shows
    that the loop body is the one after the other. *)

Record Observation := {
  o_lat : json;
  o_lon : json;
  o_alt : num;
  o_dist : num;
  o_gs : option num;
  o_hex : Key;
  o_flight : string;
  o_gs_raw : json
}.

Definition o_pos (o : Observation) : json * json := (o_lat o, o_lon o).

Definition o_entry (o : Observation) : Entry := {|
  e_lat := o_lat o;
  e_lon := o_lon o;
  e_alt := o_alt o;
  e_flight := o_flight o;
  e_gs := o_gs_raw o
|}.

Definition observe (now : string) (ac : json) : step Observation :=
  lat ← dict_get ac "lat" JNull;
  lon ← dict_get ac "lon" JNull;
  alt_geom ← dict_get ac "alt_geom" JNull;
  alt ← dict_get ac "alt_baro" alt_geom;
  if is_None lat || is_None lon || is_None alt then Continue else
  let alt := if eq_str alt "ground" then JNum (num_of_bool false) else alt in
  alt_ft ← match py_float alt with
           | FloatOk x => Next x
           | FloatValueError => Continue
           | FloatOtherError => Raise
           end;
  dist_miles ← or_raise (haversine (RECEIVER_LAT cfg, RECEIVER_LON cfg) (lat, lon));
  gs_val ← dict_get ac "gs" JNull;
  gs_float ← (if negb (is_None gs_val) && negb (eq_str gs_val "N/A")
              then match py_float gs_val with
                   | FloatOk x => Next (Some x)
                   | FloatValueError => Next None
                   | FloatOtherError => Raise
                   end
              else Next None);
  hex_val ← dict_get ac "hex" (JStr now);
  hex_code ← or_raise (hashable hex_val);
  flight_val ← dict_get ac "flight" (JStr "N/A");
  flight ← py_strip flight_val;
  gs_raw ← dict_get ac "gs" (JStr "N/A");
  Next {| o_lat := lat; o_lon := lon; o_alt := alt_ft; o_dist := dist_miles;
          o_gs := gs_float; o_hex := hex_code; o_flight := flight;
          o_gs_raw := gs_raw |}.

Definition record_observation (st : Locals * gmap Key Track) (o : Observation)
    : Locals * gmap Key Track :=
  ({| new_distances := new_distances st.1 ++ [o_dist o];
      new_altitudes := new_altitudes st.1 ++ [o_alt o];
      new_groundspeeds := new_groundspeeds st.1 ++ [o_gs o];
      temp_aircraft_seen := <[o_hex o := o_entry o]> (temp_aircraft_seen st.1);
      current_hex_codes := {[o_hex o]} ∪ current_hex_codes st.1 |},
   <[o_hex o := limit_track (default [] (st.2 !! o_hex o) ++ [o_pos o])]> st.2).

(** The observations recorded before the loop is left, and whether it is
    left normally. *)
Fixpoint processed (clock : nat → string) (i : nat) (acs : list json)
    : list Observation * bool :=
  match acs with
  | [] => ([], true)
  | ac :: rest =>
      match observe (clock i) ac with
      | Next o => let '(os, ok) := processed clock (S i) rest in (o :: os, ok)
      | Continue => processed clock (S i) rest
      | Raise => ([], false)
      end
  end.

(** The observations a cycle accepts: those of its records that survive the
    drop rules, when the payload has a collection of records and no record
    raises; [None] for a cycle that fails. *)
Definition accepted (inp : CycleInput) : option (list Observation) :=
  match inp.1 with
  | None => None
  | Some data =>
      match aircraft_of data with
      | Next acs =>
          let '(os, ok) := processed inp.2 0 acs in
          if ok then Some os else None
      | _ => None
      end
  end.

Definition accepted_list (inp : CycleInput) : list Observation :=
  default [] (accepted inp).

(** All observations accepted in the cycles [inps], in order. *)
Definition all_accepted (inps : list CycleInput) : list Observation :=
  concat (accepted_list <$> inps).

(** The observations of identity [k] among [obs], and their positions. *)
Definition of_identity (k : Key) (obs : list Observation) : list Observation :=
  filter (λ o, o_hex o = k) obs.

Definition positions_of (k : Key) (obs : list Observation) : list (json * json) :=
  o_pos <$> of_identity k obs.

(** Appending positions to a track one by one, as the loop does. *)
Definition extend_track (track : Track) (ps : list (json * json)) : Track :=
  foldl (λ t p, limit_track (t ++ [p])) track ps.

(** The groundspeed field as the loop reads it, and the cases in which the
    groundspeed of a record is not known: the field is absent or null, it is
    the sentinel, or [float] does not convert it. *)
Definition gs_field (ac : json) : json :=
  match ac with
  | JObj items => default JNull (assoc "gs" items)
  | _ => JNull
  end.

Definition gs_unknown (ac : json) : Prop :=
  gs_field ac = JNull ∨ gs_field ac = JStr "N/A" ∨
  ∀ x, py_float (gs_field ac) ≠ FloatOk x.

(** A record without the [hex] field. *)
Definition lacks_hex (ac : json) : Prop :=
  ∃ items, ac = JObj items ∧ assoc "hex" items = None.

End Cycle.
End Model.

Abbreviation Track := (list (json * json)).

(** * The rest of the window

    The buttons, the other two plots, the map, and the two loaders of
    reference data. *)

(** ** Labels and zoom *)

(** The part of the window's state the three buttons write.  Zoom levels are
    counted in halves ([current_zoom] 19 is the level 9.5): the start level
    and the step are halves, the caps are whole, and on halves of this size
    the additions and comparisons of the source are exact. *)
Record Ui := {
  show_labels : bool;
  label_toggle_button : string;
  current_zoom : Z
}.

Definition MAP_START_ZOOM : Z := 19.

(** The three attributes as [__init__] and [initUI] leave them. *)
Definition init_ui : Ui := {|
  show_labels := true;
  label_toggle_button := "Labels: ON";
  current_zoom := MAP_START_ZOOM
|}.

Definition toggle_labels (ui : Ui) : Ui :=
  let show_labels' := negb (show_labels ui) in
  {| show_labels := show_labels';
     label_toggle_button := if show_labels' then "Labels: ON" else "Labels: OFF";
     current_zoom := current_zoom ui |}.

(** [min(18, self.current_zoom + 0.5)] *)
Definition zoom_in (ui : Ui) : Ui :=
  {| show_labels := show_labels ui;
     label_toggle_button := label_toggle_button ui;
     current_zoom := Z.min 36 (current_zoom ui + 1) |}.

(** [max(4, self.current_zoom - 0.5)] *)
Definition zoom_out (ui : Ui) : Ui :=
  {| show_labels := show_labels ui;
     label_toggle_button := label_toggle_button ui;
     current_zoom := Z.max 8 (current_zoom ui - 1) |}.

(** The buttons [initUI] connects to the three methods. *)
Inductive Button :=
| LabelToggle
| ZoomOut
| ZoomIn.

Definition press (ui : Ui) (b : Button) : Ui :=
  match b with
  | LabelToggle => toggle_labels ui
  | ZoomOut => zoom_out ui
  | ZoomIn => zoom_in ui
  end.

(** The window after the clicks [bs]. *)
Definition clicks (bs : list Button) : Ui := foldl press init_ui bs.

(** ** Ordering and truncation of numbers *)

(** [x <= y] on numbers. *)
Class PyOrder `{Nums : PyNumbers} := {
  num_le : num → num → bool
}.

(** [int(x)] for a float: a [ValueError] on a NaN, an [OverflowError] on an
    infinity. *)
Inductive int_result :=
| IntOk (n : Z)
| IntValueError
| IntOverflowError.

Class PyInt `{Nums : PyNumbers} := {
  int_of_num : num → int_result
}.

(** ** The checks of folium *)

(** folium checks every location it is handed and raises when the check
    fails (a coordinate that [float] does not convert, a NaN):
    - [validate_location (lat, lon)] is the check that [Map], the markers
      and the circles run on [location=[lat, lon]];
    - [validate_locations track] is the check that [PolyLine] runs on its
      list of points. *)
Class Folium `{Nums : PyNumbers} := {
  validate_location : json * json → bool;
  validate_locations : list (json * json) → bool
}.

Section Display.
Context `{Nums : PyNumbers} `{Builtins : !PyBuiltins} `{Order : !PyOrder}
  `{Ints : !PyInt} `{Maps : !Folium}.

(** The settings the map and the loaders read. *)
Record Settings := {
  PLOT_DC_AIRSPACE : Z;
  PLOT_AIRPORTS : Z;
  AIRPORT_DISTANCE : num;
  WORLD_BORDER_DISTANCE : num
}.

(** ** The distance and altitude plots *)

(** What [update_scatter_dist_plot] hands to [scatter], or nothing when
    [all_distances] is empty. *)
Definition update_scatter_dist_plot (self : AdsbTracker)
    : option (list num * list num) :=
  match all_distances self with
  | [] => None
  | _ => Some (all_distances self, all_altitudes self)
  end.

(** What [update_hist_alt_plot] hands to [hist], or nothing when
    [all_altitudes] is empty. *)
Definition update_hist_alt_plot (self : AdsbTracker) : option (list num) :=
  match all_altitudes self with
  | [] => None
  | alts => Some alts
  end.

(** ** The map *)

(** [hex_code.upper()]: only a [str] has [upper]. *)
Definition key_upper (hex_code : Key) : option string :=
  match hex_code with
  | KStr s => Some (upper s)
  | _ => None
  end.

(** The values the f-strings of the map put into the HTML of a popup and of
    a label; in a label [None] is the text [N/A]. *)
Record Popup := {
  popup_flight : string;
  popup_alt : num;
  popup_hex : string
}.

Record AircraftLabel := {
  label_flight : string;
  label_alt : option Z;
  label_gs : option Z
}.

(** [alt_str]: [int(ac['alt'])] under [except (ValueError, TypeError)].  The
    outer [None] is an exception that is not caught. *)
Definition alt_str (alt : num) : option (option Z) :=
  match int_of_num alt with
  | IntOk n => Some (Some n)
  | IntValueError => Some None
  | IntOverflowError => None
  end.

(** [gs_str]: [int(float(ac['gs']))] under [except (ValueError, TypeError)].
    [float] raises a [TypeError] on [None], a list or a dict, and an
    [OverflowError] on a number too large. *)
Definition gs_str (gs : json) : option (option Z) :=
  match gs with
  | JNull | JArr _ | JObj _ => Some None
  | _ =>
      match py_float gs with
      | FloatOk x =>
          match int_of_num x with
          | IntOk n => Some (Some n)
          | IntValueError => Some None
          | IntOverflowError => None
          end
      | FloatValueError => Some None
      | FloatOtherError => None
      end
  end.

(** What the map shows for one entry of [current_aircraft]: the track line
    (in the mode that draws the lines of current aircraft only), the circle
    with its popup, and the label when labels are on. *)
Record AircraftDrawing := {
  drawn_line : option Track;
  drawn_at : json * json;
  drawn_popup : Popup;
  drawn_label : option AircraftLabel
}.

(** [if track and len(track) >= 2] *)
Definition long_enough (track : Track) : bool := Nat.leb 2 (length track).

Section Map.
Variable cfg : Config.
Variable settings : Settings.

(** [folium.PolyLine(track, ...)]: the line, or [None] when folium rejects
    one of its points. *)
Definition poly_line (track : Track) : option Track :=
  if validate_locations track then Some track else None.

(** One iteration of the loop over [self.current_aircraft.items()], in
    either mode; [None] when it raises.  The popup text is built first, then
    (in the mode that draws the lines of current aircraft only) the line,
    then the circle, then the label. *)
Definition draw_aircraft (ui : Ui) (self : AdsbTracker)
    (hex_code : Key) (ac : Entry) : option AircraftDrawing :=
  hex ← key_upper hex_code;
  let popup := {| popup_flight := e_flight ac; popup_alt := e_alt ac;
                  popup_hex := hex |} in
  line ← (if decide (KEEP_ALL_TRACKS cfg = 1%Z) then Some None
          else match aircraft_tracks self !! hex_code with
               | Some track =>
                   if long_enough track then Some <$> poly_line track
                   else Some None
               | None => Some None
               end);
  if negb (validate_location (e_lat ac, e_lon ac)) then None else
  label ← (if show_labels ui
           then a ← alt_str (e_alt ac);
                g ← gs_str (e_gs ac);
                Some (Some {| label_flight := e_flight ac; label_alt := a;
                              label_gs := g |})
           else Some None);
  Some {| drawn_line := line; drawn_at := (e_lat ac, e_lon ac);
          drawn_popup := popup; drawn_label := label |}.

(** What one call of [update_map] puts on the map besides the fixed
    decorations (receiver, rings): the aircraft count, the zoom, whether the
    borders and the DC airspace are drawn, the airports with their colour,
    the lines of all stored tracks (in the mode that keeps them), and the
    aircraft.  Dictionaries are gone through in the order of
    [map_to_list]. *)
Record MapView := {
  ac_count : nat;
  zoom_start : Z;
  world_borders : bool;
  dc_airspace : bool;
  airport_markers : list (string * (num * num) * string);
  persistent_lines : list Track;
  aircraft : list AircraftDrawing
}.

Definition airport_colour (status : string) : string :=
  if decide (status = "towered") then "#FFFFFF" else "#404040".

(** The two markers of one airport, at [location=[lat, lon]]. *)
Definition airport_marker (kv : string * (num * num * string))
    : option (string * (num * num) * string) :=
  if validate_location (JNum kv.2.1.1, JNum kv.2.1.2)
  then Some (kv.1, (kv.2.1.1, kv.2.1.2), airport_colour kv.2.2)
  else None.

(** [update_map]; [None] when it raises.  [world_data] and
    [airport_location] are the attributes [__init__] sets from the two
    loaders.  The map itself, the marker of the receiver and the rings are
    at the location of the receiver (the labels of the rings a fixed
    distance south of it), the circles of the DC airspace at a location
    written in the source. *)
Definition update_map (ui : Ui) (world_data : option string)
    (airport_location : gmap string (num * num * string))
    (self : AdsbTracker) : option MapView :=
  if negb (validate_location (JNum (RECEIVER_LAT cfg), JNum (RECEIVER_LON cfg)))
  then None else
  let borders := match world_data with
                 | Some (String _ _) => true
                 | _ => false
                 end in
  airports ← (if decide (PLOT_AIRPORTS settings = 1%Z)
              then mapM airport_marker (map_to_list airport_location)
              else Some []);
  lines ← (if decide (KEEP_ALL_TRACKS cfg = 1%Z)
           then mapM poly_line
                  (filter (λ t, long_enough t = true)
                          ((map_to_list (aircraft_tracks self)).*2))
           else Some []);
  drawings ← mapM (λ kv, draw_aircraft ui self kv.1 kv.2)
                  (map_to_list (current_aircraft self));
  Some {| ac_count := size (current_aircraft self);
          zoom_start := current_zoom ui;
          world_borders := borders;
          dc_airspace := bool_decide (PLOT_DC_AIRSPACE settings = 1%Z);
          airport_markers := airports;
          persistent_lines := lines;
          aircraft := drawings |}.

(** ** One tick of the timer *)

(** What a call of [update_data] does to the window.  The method has no
    [return] statement: whenever it returns, it returns [None]. *)
Inductive Refresh :=
| NotRefreshed
| MapRaised
| Redrawn (drawn : MapView)
          (scatter_dist : option (list num * list num))
          (hist_alt : option (list num))
          (scatter_gs : option (list (option num) * list num))
          (hist_gs : option (list (option num))).

(** [update_data].  When the fetch fails a message is printed and nothing
    is redrawn.  When it succeeds the map is redrawn first; an exception of
    [update_map] is not caught, it leaves [update_data] and no plot is
    redrawn.  Otherwise the four plot updaters are called in turn, each
    with the data its definition gives. *)
Definition update_data (ui : Ui) (world_data : option string)
    (airport_location : gmap string (num * num * string))
    (response : option json) (clock : nat → string) (self : AdsbTracker)
    : AdsbTracker * Refresh :=
  let '(self', ok) := fetch_aircraft_data cfg response clock self in
  if ok then
    match update_map ui world_data airport_location self' with
    | None => (self', MapRaised)
    | Some m =>
        (self', Redrawn m (update_scatter_dist_plot self')
                          (update_hist_alt_plot self')
                          (update_scatter_gs_plot self')
                          (update_hist_gs_plot self'))
    end
  else (self', NotRefreshed).

(** ** Loading the airports *)

(** [row[k]] for a row of [csv.DictReader]: the text of the column, [None]
    for a column the line is too short for; the outer [None] is a column the
    file does not have ([KeyError]). *)
Fixpoint column (k : string) (row : list (string * option string))
    : option (option string) :=
  match row with
  | [] => None
  | (k', v) :: rest => if decide (k' = k) then Some v else column k rest
  end.

Inductive row_result :=
| RowKeep (code : string) (airport : num * num * string)
| RowSkip
| RowError.

(** [x or y] on texts that may be [None]: [x] when it is a nonempty text. *)
Definition text_or (x y : option string) : option string :=
  match x with
  | Some (String _ _) => x
  | _ => y
  end.

(** The body of the loop over the rows.  [float] raises a [TypeError] on
    [None] and a [ValueError] on a text that is not a number; the distance
    call, on two floats, can only raise the [ValueError] of its range check;
    all of these are caught and the row is skipped.  A missing latitude or
    longitude column is a [KeyError], which is not caught there. *)
Definition airport_of_row (row : list (string * option string)) : row_result :=
  match column "latitude_deg" row with
  | None => RowError
  | Some lat_text =>
      match lat_text ≫= float_of_str with
      | None => RowSkip
      | Some lat =>
          match column "longitude_deg" row with
          | None => RowError
          | Some lon_text =>
              match lon_text ≫= float_of_str with
              | None => RowSkip
              | Some lon =>
                  match haversine (RECEIVER_LAT cfg, RECEIVER_LON cfg)
                                  (JNum lat, JNum lon) with
                  | None => RowSkip
                  | Some dist_miles =>
                      if num_le dist_miles (AIRPORT_DISTANCE settings) then
                        let airport_type := default (Some "") (column "type" row) in
                        let status :=
                          if bool_decide (airport_type = Some "large_airport")
                             || bool_decide (airport_type = Some "medium_airport")
                          then "towered" else "untowered" in
                        let code :=
                          text_or (default None (column "icao_code" row))
                                  (default (Some "") (column "ident" row)) in
                        match code with
                        | Some (String c s) =>
                            RowKeep (String c s) (lat, lon, status)
                        | _ => RowSkip
                        end
                      else RowSkip
                  end
              end
          end
      end
  end.

(** The loop over the rows: an exception that the body does not catch ends
    it, and what has been stored so far is what the function returns. *)
Fixpoint load_airports (rows : list (list (string * option string)))
    (airport_locations : gmap string (num * num * string))
    : gmap string (num * num * string) :=
  match rows with
  | [] => airport_locations
  | row :: rest =>
      match airport_of_row row with
      | RowKeep code airport =>
          load_airports rest (<[code := airport]> airport_locations)
      | RowSkip => load_airports rest airport_locations
      | RowError => airport_locations
      end
  end.

(** [getAirportLocations].  [have_file] is [os.path.exists('airports.csv')],
    [download_ok] whether the download and the writing of the file go
    through, [reader] the rows the reader yields before it ends or raises
    ([None] when the file cannot be opened). *)
Definition getAirportLocations (have_file download_ok : bool)
    (reader : option (list (list (string * option string))))
    : gmap string (num * num * string) :=
  if decide (PLOT_AIRPORTS settings = 0%Z) then ∅
  else if negb have_file && negb download_ok then ∅
  else match reader with
       | None => ∅
       | Some rows => load_airports rows ∅
       end.

(** ** Loading the world borders *)

(** [v[i]] for an index [i >= 0]: an element of a list, a character of a
    string; a dict has no integer key ([KeyError]), anything else is not
    subscriptable ([TypeError]). *)
Definition py_index (v : json) (i : nat) : option json :=
  match v with
  | JArr l => l !! i
  | JStr s =>
      (λ c, JStr (String c EmptyString)) <$> String.list_ascii_of_string s !! i
  | _ => None
  end.

(** [len(v)] *)
Definition py_len (v : json) : option nat :=
  match v with
  | JArr l => Some (length l)
  | JStr s => Some (length (String.list_ascii_of_string s))
  | JObj items => Some (length items)
  | _ => None
  end.

(** [for coord in v[:500]]: the elements the loop goes through; a dict or a
    value that is not a sequence cannot be sliced. *)
Definition first_500 (v : json) : option (list json) :=
  match v with
  | JArr l => Some (take 500 l)
  | JStr s =>
      Some ((λ c, JStr (String c EmptyString))
              <$> take 500 (String.list_ascii_of_string s))
  | _ => None
  end.

(** The loop that sets [within_range]; [None] when it raises.  The distance
    call is under a bare [except]; [len] and the two subscripts are not. *)
Fixpoint within_range (coords : list json) : option bool :=
  match coords with
  | [] => Some false
  | coord :: rest =>
      n ← py_len coord;
      if Nat.leb 2 n then
        c1 ← py_index coord 1;
        c0 ← py_index coord 0;
        match haversine (RECEIVER_LAT cfg, RECEIVER_LON cfg) (c1, c0) with
        | Some dist_miles =>
            if num_le dist_miles (WORLD_BORDER_DISTANCE settings)
            then Some true
            else within_range rest
        | None => within_range rest
        end
      else within_range rest
  end.

(** [coords.extend(polygon[0])] for every polygon. *)
Fixpoint outer_rings (polygons : list json) (coords : list json)
    : step (list json) :=
  match polygons with
  | [] => Next coords
  | polygon :: rest =>
      ring ← or_raise (py_index polygon 0);
      points ← py_iter ring;
      outer_rings rest (coords ++ points)
  end.

(** The points of a geometry that the distance check looks at. *)
Definition sampled_points (geometry : json) : step (list json) :=
  type ← dict_get geometry "type" JNull;
  if eq_str type "Polygon" then
    coordinates ← dict_get geometry "coordinates" (JArr [JArr []]);
    coords ← or_raise (py_index coordinates 0);
    or_raise (first_500 coords)
  else if eq_str type "MultiPolygon" then
    coordinates ← dict_get geometry "coordinates" (JArr []);
    polygons ← py_iter coordinates;
    coords ← outer_rings polygons [];
    Next (take 500 coords)
  else Continue.

(** The loop over the features; [None] when an iteration raises. *)
Fixpoint filter_features (features : list json) : option (list json) :=
  match features with
  | [] => Some []
  | feature :: rest =>
      match geometry ← dict_get feature "geometry" (JObj []);
            sampled_points geometry with
      | Next coords =>
          near ← within_range coords;
          filtered ← filter_features rest;
          Some (if near : bool then feature :: filtered else filtered)
      | Continue => filter_features rest
      | Raise => None
      end
  end.

(** [getWorldBorders], up to the serialisation: the result is the list under
    [features] of the collection the function returns as text, [None] when
    it returns [None].  [data] is what [json.load] gives ([None] when the
    file cannot be opened or decoded). *)
Definition getWorldBorders (have_file download_ok : bool) (data : option json)
    : option (list json) :=
  if negb have_file && negb download_ok then None
  else match data with
       | None => None
       | Some data =>
           match features ← dict_get data "features" (JArr []);
                 py_iter features with
           | Next features => filter_features features
           | _ => None
           end
       end.


End Map.
End Display.


(** ** A small instance, for evaluation

    Integer-valued numbers.  [float] on a number is the number itself, on a
    string it reads an unsigned decimal integer and rejects every other text;
    the distance is a taxicab stand-in for the great-circle distance, defined
    on numbers only as the library call is.  None of the properties below
    depends on the value of a distance.  The texts used below are ASCII
    texts, so that the two functions for the texts beyond ASCII are never
    reached. *)

Module Sample.

#[export] Instance int_numbers : PyNumbers := {|
  num := Z;
  num_of_bool := λ b : bool, if b then 1%Z else 0%Z
|}.

Definition digit (c : ascii) : option Z :=
  let n := nat_of_ascii c in
  if Nat.leb 48 n && Nat.leb n 57 then Some (Z.of_nat (n - 48)) else None.

Fixpoint digits (acc : Z) (s : list ascii) : option Z :=
  match s with
  | [] => Some acc
  | c :: s' =>
      match digit c with
      | Some d => digits (10 * acc + d) s'
      | None => None
      end
  end.

Definition int_of_str (s : string) : option Z :=
  match String.list_ascii_of_string s with
  | [] => None
  | l => digits 0 l
  end.

Definition as_number (v : json) : option Z :=
  match v with
  | JNum x => Some x
  | JBool b => Some (num_of_bool b)
  | _ => None
  end.

Definition taxicab (p : Z * Z) (q : json * json) : option Z :=
  match as_number q.1, as_number q.2 with
  | Some a, Some b => Some (Z.abs (a - p.1) + Z.abs (b - p.2))%Z
  | _, _ => None
  end.

#[export] Instance int_builtins : PyBuiltins := {|
  float_of_num := Some;
  float_of_str := int_of_str;
  strip_unicode := strip_ascii;
  upper_unicode := upper_ascii;
  haversine := taxicab
|}.

(** The configuration of the source, with the receiver at the origin. *)
Definition default_config : Config := {|
  RECEIVER_LAT := 0%Z;
  RECEIVER_LON := 0%Z;
  MAX_TRACK_POINTS := 10;
  KEEP_ALL_TRACKS := 0
|}.

Definition keep_all_config : Config := {|
  RECEIVER_LAT := 0%Z;
  RECEIVER_LON := 0%Z;
  MAX_TRACK_POINTS := 10;
  KEEP_ALL_TRACKS := 1
|}.


(** A well-formed record: identity, position, barometric altitude. *)
Definition plane (hex : string) (lat lon alt : Z) : json :=
  JObj [("hex", JStr hex); ("lat", JNum lat); ("lon", JNum lon);
        ("alt_baro", JNum alt); ("gs", JNum 250%Z); ("flight", JStr "UAL12  ")].

(** A record without the [hex] field. *)
Definition anonymous (lat lon alt : Z) : json :=
  JObj [("lat", JNum lat); ("lon", JNum lon); ("alt_baro", JNum alt)].

(** A record whose altitude is a JSON array. *)
Definition bad_altitude (hex : string) : json :=
  JObj [("hex", JStr hex); ("lat", JNum 3%Z); ("lon", JNum 4%Z);
        ("alt_baro", JArr [])].

(** A record whose groundspeed is a JSON array. *)
Definition bad_groundspeed (hex : string) : json :=
  JObj [("hex", JStr hex); ("lat", JNum 3%Z); ("lon", JNum 4%Z);
        ("alt_baro", JNum 100%Z); ("gs", JArr [])].

(** A record whose latitude is a string. *)
Definition bad_latitude (hex : string) : json :=
  JObj [("hex", JStr hex); ("lat", JStr "north"); ("lon", JNum 4%Z);
        ("alt_baro", JNum 100%Z)].

Definition snapshot (acs : list json) : json := JObj [("aircraft", JArr acs)].

(** A clock that is read twice within its resolution. *)
Definition stuck_clock : nat → string := λ _, "1762250000.0".

Definition reply (acs : list json) : CycleInput := (Some (snapshot acs), stuck_clock).

(** Eleven cycles, cycle [i] reporting the identity [XYZ] at position
    [(i, i)], and the observations they yield. *)
Definition eleven : list Z := [1; 2; 3; 4; 5; 6; 7; 8; 9; 10; 11]%Z.

Definition xyz_cycle (i : Z) : CycleInput := reply [plane "XYZ" i i 1000].

Definition xyz_observation (i : Z) : Observation := {|
  o_lat := JNum i;
  o_lon := JNum i;
  o_alt := 1000%Z;
  o_dist := (Z.abs (i - 0) + Z.abs (i - 0))%Z;
  o_gs := Some 250%Z;
  o_hex := KStr "XYZ";
  o_flight := "UAL12";
  o_gs_raw := JNum 250%Z
|}.

(** The tracker after one cycle that reported [a1] at [(1, 2)]. *)
Definition after_a1 (cfg : Config) : AdsbTracker :=
  run cfg [reply [plane "a1" 1 2 300]].

(** The order and the truncation of integers, and the settings of the
    source with the distances taken as they are written there. *)
#[export] Instance int_order : PyOrder := {| num_le := Z.leb |}.

#[export] Instance int_ints : PyInt := {| int_of_num := IntOk |}.

(** folium on integers: a location is accepted when both coordinates are
    numbers (an integer is never a NaN), a line when all its points are. *)
Definition int_location (p : json * json) : bool :=
  match as_number p.1, as_number p.2 with
  | Some _, Some _ => true
  | _, _ => false
  end.

#[export] Instance int_folium : Folium := {|
  validate_location := int_location;
  validate_locations := forallb int_location
|}.

Definition default_settings : Settings := {|
  PLOT_DC_AIRSPACE := 0;
  PLOT_AIRPORTS := 1;
  AIRPORT_DISTANCE := 100%Z;
  WORLD_BORDER_DISTANCE := 200%Z
|}.

(** Records for the edges of the loop: altitude on the ground, geometric
    altitude only, a null barometric altitude, a null identity, a null
    label. *)
Definition grounded_items : list (string * json) :=
  [("hex", JStr "g1"); ("lat", JNum 1%Z); ("lon", JNum 2%Z);
   ("alt_baro", JStr "ground")].

Definition geometric_items : list (string * json) :=
  [("hex", JStr "g2"); ("lat", JNum 1%Z); ("lon", JNum 2%Z);
   ("alt_geom", JNum 900%Z)].

Definition null_baro_items : list (string * json) :=
  [("hex", JStr "g3"); ("lat", JNum 1%Z); ("lon", JNum 2%Z);
   ("alt_baro", JNull); ("alt_geom", JNum 900%Z)].

Definition null_hex_items : list (string * json) :=
  [("hex", JNull); ("lat", JNum 1%Z); ("lon", JNum 2%Z);
   ("alt_baro", JNum 100%Z)].

Definition null_flight_items : list (string * json) :=
  [("hex", JStr "g4"); ("lat", JNum 1%Z); ("lon", JNum 2%Z);
   ("alt_baro", JNum 100%Z); ("flight", JNull)].

Definition plane_items : list (string * json) :=
  [("hex", JStr "a1"); ("lat", JNum 1%Z); ("lon", JNum 2%Z);
   ("alt_baro", JNum 300%Z); ("gs", JNum 250%Z); ("flight", JStr "UAL12  ")].

(** A tracker whose table holds an entry that folium cannot place.  The
    integers have no NaN; a null latitude stands in for one. *)
Definition misplaced_entry : Entry := {|
  e_lat := JNull;
  e_lon := JNum 4%Z;
  e_alt := 100%Z;
  e_flight := "UAL12";
  e_gs := JNum 250%Z
|}.

Definition misplaced : AdsbTracker := {|
  all_distances := [];
  all_altitudes := [];
  all_groundspeeds := [];
  current_aircraft := {[ KStr "a1" := misplaced_entry ]};
  aircraft_tracks := ∅
|}.

(** The window with labels off, and at the upper cap of the zoom. *)
Definition labels_off : Ui := toggle_labels init_ui.

Definition zoomed_in : Ui := {|
  show_labels := true;
  label_toggle_button := "Labels: ON";
  current_zoom := 36
|}.

(** Rows of the airports file. *)
Definition airport_row (icao ident type lat lon : string)
    : list (string * option string) :=
  [("ident", Some ident); ("type", Some type); ("latitude_deg", Some lat);
   ("longitude_deg", Some lon); ("icao_code", Some icao)].

Definition no_latitude_row : list (string * option string) :=
  [("ident", Some "XYZ"); ("type", Some "heliport");
   ("longitude_deg", Some "50")].

(** Features of the borders file: a polygon given by its first ring, and a
    feature whose geometry is null. *)
Definition point (p : Z * Z) : json := JArr [JNum p.1; JNum p.2].

Definition polygon (name : string) (ring : list (Z * Z)) : list (string * json) :=
  [("type", JStr "Feature"); ("id", JStr name);
   ("geometry", JObj [("type", JStr "Polygon");
                      ("coordinates", JArr [JArr (point <$> ring)])])].

Definition null_geometry : json :=
  JObj [("type", JStr "Feature"); ("geometry", JNull)].

Definition borders (features : list json) : list (string * json) :=
  [("type", JStr "FeatureCollection"); ("features", JArr features)].

End Sample.


(** * Properties *)

Section Properties.
Context `{Nums : PyNumbers} `{Builtins : !PyBuiltins}.
Variable cfg : Config.

Implicit Types (st : Locals * gmap Key Track) (o : Observation)
  (obs : list Observation) (k : Key) (self : AdsbTracker) (inp : CycleInput).

(** ** The loop as a fold over observations *)

Lemma loop_body_observe now ac st :
  loop_body cfg now ac st = o ← observe cfg now ac; Next (record_observation cfg st o).
Proof.
  destruct st as [loc tracks]. unfold loop_body, observe.
  destruct ac as [| | | | |items]; try reflexivity.
  cbn [dict_get mbind step_bind].
  repeat (try reflexivity;
          first [ match goal with
                  | |- context [match ?x with _ => _ end] => destruct x
                  end
                | destruct (haversine _ _)
                | destruct (hashable _)
                | destruct (py_strip _) ];
          cbn [or_raise mbind step_bind]).
Qed.

Lemma for_each_processed clock acs : ∀ i st,
  for_each_aircraft cfg clock i acs st =
    (foldl (record_observation cfg) st (processed cfg clock i acs).1,
     (processed cfg clock i acs).2).
Proof.
  induction acs as [|ac rest IH]; intros i st; [reflexivity|].
  cbn [for_each_aircraft processed]. rewrite loop_body_observe.
  destruct (observe cfg (clock i) ac) as [o| |]; cbn [mbind step_bind].
  - rewrite IH. destruct (processed cfg clock (S i) rest); reflexivity.
  - apply IH.
  - reflexivity.
Qed.

Lemma fold_new_distances obs : ∀ st,
  new_distances (foldl (record_observation cfg) st obs).1 =
    new_distances st.1 ++ (o_dist <$> obs).
Proof.
  induction obs as [|o obs IH]; intros st; cbn [foldl fmap list_fmap].
  - by rewrite app_nil_r.
  - rewrite IH. cbn. by rewrite <- app_assoc.
Qed.

Lemma fold_new_altitudes obs : ∀ st,
  new_altitudes (foldl (record_observation cfg) st obs).1 =
    new_altitudes st.1 ++ (o_alt <$> obs).
Proof.
  induction obs as [|o obs IH]; intros st; cbn [foldl fmap list_fmap].
  - by rewrite app_nil_r.
  - rewrite IH. cbn. by rewrite <- app_assoc.
Qed.

Lemma fold_new_groundspeeds obs : ∀ st,
  new_groundspeeds (foldl (record_observation cfg) st obs).1 =
    new_groundspeeds st.1 ++ (o_gs <$> obs).
Proof.
  induction obs as [|o obs IH]; intros st; cbn [foldl fmap list_fmap].
  - by rewrite app_nil_r.
  - rewrite IH. cbn. by rewrite <- app_assoc.
Qed.

Lemma of_identity_cons k o obs :
  of_identity k (o :: obs) =
    if decide (o_hex o = k) then o :: of_identity k obs else of_identity k obs.
Proof. unfold of_identity. by rewrite filter_cons. Qed.

Lemma fold_temp_lookup obs k : ∀ st,
  temp_aircraft_seen (foldl (record_observation cfg) st obs).1 !! k =
    match last (of_identity k obs) with
    | Some o => Some (o_entry o)
    | None => temp_aircraft_seen st.1 !! k
    end.
Proof.
  induction obs as [|o obs IH]; intros st; [reflexivity|].
  cbn [foldl]. rewrite IH, of_identity_cons. case_decide as Hk.
  - rewrite last_cons. destruct (last (of_identity k obs)); [done|].
    cbn. subst k. by rewrite lookup_insert_eq.
  - destruct (last (of_identity k obs)); [done|].
    cbn. by rewrite lookup_insert_ne.
Qed.

Lemma fold_temp_dom obs : ∀ st,
  dom (temp_aircraft_seen (foldl (record_observation cfg) st obs).1) =
    list_to_set (o_hex <$> obs) ∪ dom (temp_aircraft_seen st.1).
Proof.
  induction obs as [|o obs IH]; intros st; cbn [foldl fmap list_fmap list_to_set].
  - set_solver.
  - rewrite IH. cbn. rewrite dom_insert_L. set_solver.
Qed.

Lemma fold_hex_codes obs : ∀ st,
  current_hex_codes (foldl (record_observation cfg) st obs).1 =
    list_to_set (o_hex <$> obs) ∪ current_hex_codes st.1.
Proof.
  induction obs as [|o obs IH]; intros st; cbn [foldl fmap list_fmap list_to_set].
  - set_solver.
  - rewrite IH. cbn. set_solver.
Qed.

Lemma positions_of_cons k o obs :
  positions_of k (o :: obs) =
    if decide (o_hex o = k) then o_pos o :: positions_of k obs
    else positions_of k obs.
Proof. unfold positions_of. rewrite of_identity_cons. by case_decide. Qed.

(** Every identity's track after the loop: untouched when no observation
    has that identity, and otherwise the old track (or the empty one)
    extended by the positions of its observations, in order. *)
Lemma fold_tracks obs k : ∀ st,
  (foldl (record_observation cfg) st obs).2 !! k =
    match positions_of k obs with
    | [] => st.2 !! k
    | ps => Some (extend_track cfg (default [] (st.2 !! k)) ps)
    end.
Proof.
  induction obs as [|o obs IH]; intros st; [reflexivity|].
  cbn [foldl]. rewrite IH, positions_of_cons. case_decide as Hk.
  - subst k. destruct (positions_of (o_hex o) obs);
      cbn [record_observation snd]; rewrite lookup_insert_eq; reflexivity.
  - destruct (positions_of k obs);
      cbn [record_observation snd]; rewrite lookup_insert_ne by done;
      reflexivity.
Qed.

Lemma prune_fold_lookup (seen : gset Key) k ks : ∀ m : gmap Key Track,
  foldl (λ m hex_code, if decide (hex_code ∈ seen) then m else delete hex_code m)
        m ks !! k =
    if decide (k ∈ seen) then m !! k
    else if decide (k ∈ ks) then None else m !! k.
Proof.
  induction ks as [|a ks IH]; intros m; cbn [foldl].
  - destruct (decide (k ∈ seen)); [done|].
    destruct (decide (k ∈ [])) as [Hin|]; [|done].
    by apply elem_of_nil in Hin.
  - rewrite IH.
    destruct (decide (k ∈ seen)) as [Hs|Hs].
    { destruct (decide (a ∈ seen)); [done|].
      apply lookup_delete_ne. by intros ->. }
    destruct (decide (k ∈ ks)) as [Hk|Hk].
    { rewrite decide_True; [done|]. by apply list_elem_of_further. }
    destruct (decide (a = k)) as [->|Hak].
    + rewrite (decide_True (P := k ∈ k :: ks)) by apply list_elem_of_here.
      rewrite (decide_False (P := k ∈ seen)) by done. apply lookup_delete_eq.
    + rewrite (decide_False (P := k ∈ a :: ks)).
      2:{ intros [?|?]%elem_of_cons; by subst. }
      destruct (decide (a ∈ seen)); [done|]. by apply lookup_delete_ne.
Qed.

Lemma prune_lookup (seen : gset Key) (tracks : gmap Key Track) k :
  prune seen tracks !! k = if decide (k ∈ seen) then tracks !! k else None.
Proof.
  unfold prune. rewrite prune_fold_lookup.
  case_decide; [done|]. case_decide as Hin; [done|].
  apply not_elem_of_dom. set_solver.
Qed.

(** ** The method in terms of the observations *)

Lemma fetch_eq response clock self :
  fetch_aircraft_data cfg response clock self =
    match response with
    | None => (self, false)
    | Some data =>
        match aircraft_of data with
        | Next acs =>
            let p := processed cfg clock 0 acs in
            let st := foldl (record_observation cfg)
                            (fresh_locals, aircraft_tracks self) p.1 in
            if p.2
            then ({| all_distances := all_distances self ++ new_distances st.1;
                     all_altitudes := all_altitudes self ++ new_altitudes st.1;
                     all_groundspeeds := all_groundspeeds self ++ new_groundspeeds st.1;
                     current_aircraft := temp_aircraft_seen st.1;
                     aircraft_tracks :=
                       if decide (KEEP_ALL_TRACKS cfg = 0%Z)
                       then prune (current_hex_codes st.1) st.2
                       else st.2 |}, true)
            else ({| all_distances := all_distances self;
                     all_altitudes := all_altitudes self;
                     all_groundspeeds := all_groundspeeds self;
                     current_aircraft := current_aircraft self;
                     aircraft_tracks := st.2 |}, false)
        | _ => (self, false)
        end
    end.
Proof.
  unfold fetch_aircraft_data. destruct response as [data|]; [|reflexivity].
  destruct (aircraft_of data) as [acs| |]; try reflexivity.
  rewrite for_each_processed. cbv zeta.
  destruct (foldl _ _ _) as [loc tracks].
  destruct (processed cfg clock 0 acs).2; reflexivity.
Qed.

Lemma fetch_accepted self inp obs :
  accepted cfg inp = Some obs →
  fetch_aircraft_data cfg inp.1 inp.2 self =
    (let st := foldl (record_observation cfg)
                     (fresh_locals, aircraft_tracks self) obs in
     {| all_distances := all_distances self ++ (o_dist <$> obs);
        all_altitudes := all_altitudes self ++ (o_alt <$> obs);
        all_groundspeeds := all_groundspeeds self ++ (o_gs <$> obs);
        current_aircraft := temp_aircraft_seen st.1;
        aircraft_tracks :=
          if decide (KEEP_ALL_TRACKS cfg = 0%Z)
          then prune (list_to_set (o_hex <$> obs)) st.2
          else st.2 |}, true).
Proof.
  unfold accepted. rewrite fetch_eq.
  destruct inp.1 as [data|]; [|done].
  destruct (aircraft_of data) as [acs| |]; try done.
  destruct (processed cfg inp.2 0 acs) as [os ok] eqn:Ep.
  destruct ok; [|done]. intros [= ->]. cbn [fst snd]. cbv zeta.
  rewrite fold_new_distances, fold_new_altitudes, fold_new_groundspeeds,
    fold_hex_codes.
  cbn [fresh_locals fst new_distances new_altitudes new_groundspeeds
       current_hex_codes app].
  by rewrite (right_id_L ∅ (∪)).
Qed.

Lemma fetch_rejected self inp :
  accepted cfg inp = None →
  ∃ obs,
    fetch_aircraft_data cfg inp.1 inp.2 self =
      ({| all_distances := all_distances self;
          all_altitudes := all_altitudes self;
          all_groundspeeds := all_groundspeeds self;
          current_aircraft := current_aircraft self;
          aircraft_tracks :=
            (foldl (record_observation cfg)
                   (fresh_locals, aircraft_tracks self) obs).2 |}, false).
Proof.
  unfold accepted. rewrite fetch_eq.
  destruct inp.1 as [data|]; [|by exists []; destruct self].
  destruct (aircraft_of data) as [acs| |];
    try (by exists []; destruct self).
  destruct (processed cfg inp.2 0 acs) as [os ok] eqn:Ep.
  destruct ok; [done|]. intros _. by exists os.
Qed.

Lemma cycle_ok_accepted self inp :
  cycle_ok cfg self inp = true ↔ is_Some (accepted cfg inp).
Proof.
  unfold cycle_ok. destruct (accepted cfg inp) as [obs|] eqn:Ea.
  - rewrite (fetch_accepted _ _ _ Ea). split; [by eexists|done].
  - destruct (fetch_rejected self _ Ea) as [obs ->].
    split; [done|by intros [? ?]].
Qed.

(** A cycle that fails before the loop starts (no response, or a payload
    without a collection to iterate over) changes nothing at all. *)
Lemma fetch_no_collection self response clock :
  (response = None ∨
   ∃ data, response = Some data ∧ ∀ acs, aircraft_of data ≠ Next acs) →
  fetch_aircraft_data cfg response clock self = (self, false).
Proof.
  intros [->|(data & -> & Hno)]; [reflexivity|].
  unfold fetch_aircraft_data.
  destruct (aircraft_of data) as [acs| |]; [by destruct (Hno acs)|done..].
Qed.

(** A cycle that fails leaves the table and the three series as they were. *)
Lemma failed_cycle_table_and_series self inp :
  cycle_ok cfg self inp = false →
  current_aircraft (cycle cfg self inp) = current_aircraft self ∧
  all_distances (cycle cfg self inp) = all_distances self ∧
  all_altitudes (cycle cfg self inp) = all_altitudes self ∧
  all_groundspeeds (cycle cfg self inp) = all_groundspeeds self.
Proof.
  intros Hf. unfold cycle.
  destruct (accepted cfg inp) as [obs|] eqn:Ea.
  - assert (cycle_ok cfg self inp = true) as Ht
      by (apply cycle_ok_accepted; by eexists).
    congruence.
  - by destruct (fetch_rejected self _ Ea) as [obs ->].
Qed.

(** ** Limiting a track *)

Lemma length_most_recent {A} (n : nat) (l : list A) :
  length (most_recent n l) = n `min` length l.
Proof. unfold most_recent. rewrite length_drop. lia. Qed.

Lemma most_recent_short {A} (n : nat) (l : list A) :
  (length l ≤ n)%nat → most_recent n l = l.
Proof.
  intros Hl. unfold most_recent.
  by replace (length l - n) with 0 by lia.
Qed.

Lemma most_recent_snoc {A} (n : nat) (l : list A) p :
  (1 ≤ n)%nat → most_recent n (most_recent n l ++ [p]) = most_recent n (l ++ [p]).
Proof.
  intros Hn. destruct (decide (length l ≤ n)%nat) as [Hl|Hl].
  { by rewrite (most_recent_short n l). }
  unfold most_recent at 1 3.
  rewrite !length_app, length_most_recent. cbn [length].
  unfold most_recent.
  rewrite !drop_app_le by (rewrite ?length_drop; lia).
  rewrite drop_drop. do 2 f_equal. lia.
Qed.

Lemma limit_track_most_recent (t : Track) :
  (1 ≤ MAX_TRACK_POINTS cfg)%Z →
  limit_track cfg t = most_recent (Z.to_nat (MAX_TRACK_POINTS cfg)) t.
Proof.
  intros HN. unfold limit_track, slice_from.
  destruct (Z.ltb_spec (MAX_TRACK_POINTS cfg) (Z.of_nat (length t))) as [Hlt|Hge].
  - destruct (Z.ltb_spec (- MAX_TRACK_POINTS cfg) 0) as [_|?]; [|lia].
    unfold most_recent. f_equal. lia.
  - symmetry. apply most_recent_short. lia.
Qed.

Lemma extend_track_most_recent (t : Track) ps :
  (1 ≤ MAX_TRACK_POINTS cfg)%Z →
  extend_track cfg (most_recent (Z.to_nat (MAX_TRACK_POINTS cfg)) t) ps =
    most_recent (Z.to_nat (MAX_TRACK_POINTS cfg)) (t ++ ps).
Proof.
  intros HN. revert t.
  induction ps as [|p ps IH]; intros t; cbn [extend_track foldl].
  - by rewrite app_nil_r.
  - rewrite limit_track_most_recent, most_recent_snoc by lia.
    fold (extend_track cfg (most_recent (Z.to_nat (MAX_TRACK_POINTS cfg)) (t ++ [p])) ps).
    rewrite IH. by rewrite <- app_assoc.
Qed.

Lemma extend_track_cons (t : Track) p ps :
  (1 ≤ MAX_TRACK_POINTS cfg)%Z →
  extend_track cfg t (p :: ps) =
    most_recent (Z.to_nat (MAX_TRACK_POINTS cfg)) (t ++ p :: ps).
Proof.
  intros HN. cbn [extend_track foldl].
  rewrite limit_track_most_recent by done.
  fold (extend_track cfg (most_recent (Z.to_nat (MAX_TRACK_POINTS cfg)) (t ++ [p])) ps).
  rewrite extend_track_most_recent by done. by rewrite <- app_assoc.
Qed.

(** ** The cumulative series *)

Lemma accepted_list_Some inp obs :
  accepted cfg inp = Some obs → accepted_list cfg inp = obs.
Proof. unfold accepted_list. by intros ->. Qed.

Lemma cycle_series self inp :
  all_distances (cycle cfg self inp) =
    all_distances self ++ (o_dist <$> accepted_list cfg inp) ∧
  all_altitudes (cycle cfg self inp) =
    all_altitudes self ++ (o_alt <$> accepted_list cfg inp) ∧
  all_groundspeeds (cycle cfg self inp) =
    all_groundspeeds self ++ (o_gs <$> accepted_list cfg inp).
Proof.
  unfold cycle, accepted_list.
  destruct (accepted cfg inp) as [obs|] eqn:Ea.
  - by rewrite (fetch_accepted _ _ _ Ea).
  - destruct (fetch_rejected self _ Ea) as [obs ->].
    cbn. by rewrite !app_nil_r.
Qed.

Lemma run_snoc inps inp :
  run cfg (inps ++ [inp]) = cycle cfg (run cfg inps) inp.
Proof. unfold run. by rewrite foldl_app. Qed.

Lemma all_accepted_snoc inps inp :
  all_accepted cfg (inps ++ [inp]) =
    all_accepted cfg inps ++ accepted_list cfg inp.
Proof.
  unfold all_accepted. rewrite fmap_app, concat_app. cbn.
  by rewrite app_nil_r.
Qed.

Lemma run_series inps :
  all_distances (run cfg inps) = o_dist <$> all_accepted cfg inps ∧
  all_altitudes (run cfg inps) = o_alt <$> all_accepted cfg inps ∧
  all_groundspeeds (run cfg inps) = o_gs <$> all_accepted cfg inps.
Proof.
  induction inps as [|inp inps (IHd & IHa & IHg)] using rev_ind; [done|].
  rewrite run_snoc, all_accepted_snoc, !fmap_app.
  destruct (cycle_series (run cfg inps) inp) as (-> & -> & ->).
  by rewrite IHd, IHa, IHg.
Qed.

(** C3.  After any number of cycles the three cumulative series are the
    distances, the altitudes and the groundspeeds (a number or the unknown
    marker [None]) of one and the same list, the observations accepted so
    far: they have equal length and entry [i] of each comes from the same
    observation.  A further cycle appends to each series one entry per
    observation it accepts, nothing when it fails, and leaves every earlier
    entry in place. *)
Theorem series_aligned_append_only inps inp :
  (all_distances (run cfg inps) = o_dist <$> all_accepted cfg inps ∧
   all_altitudes (run cfg inps) = o_alt <$> all_accepted cfg inps ∧
   all_groundspeeds (run cfg inps) = o_gs <$> all_accepted cfg inps) ∧
  (length (all_distances (run cfg inps)) = length (all_altitudes (run cfg inps)) ∧
   length (all_altitudes (run cfg inps)) = length (all_groundspeeds (run cfg inps))) ∧
  (all_distances (run cfg (inps ++ [inp])) =
     all_distances (run cfg inps) ++ (o_dist <$> accepted_list cfg inp) ∧
   all_altitudes (run cfg (inps ++ [inp])) =
     all_altitudes (run cfg inps) ++ (o_alt <$> accepted_list cfg inp) ∧
   all_groundspeeds (run cfg (inps ++ [inp])) =
     all_groundspeeds (run cfg inps) ++ (o_gs <$> accepted_list cfg inp)).
Proof.
  pose proof (run_series inps) as (Hd & Ha & Hg).
  split; [done|]. split.
  - rewrite Hd, Ha, Hg. by rewrite !length_fmap.
  - rewrite run_snoc. apply cycle_series.
Qed.

(** ** The current-aircraft table *)

Lemma cycle_ok_true self inp :
  cycle_ok cfg self inp = true →
  ∃ obs, accepted cfg inp = Some obs ∧ accepted_list cfg inp = obs.
Proof.
  intros [obs Hobs]%cycle_ok_accepted. exists obs.
  split; [done|]. by apply accepted_list_Some.
Qed.

Lemma cycle_table self inp :
  cycle_ok cfg self inp = true →
  (∀ k, current_aircraft (cycle cfg self inp) !! k =
          o_entry <$> last (of_identity k (accepted_list cfg inp))) ∧
  dom (current_aircraft (cycle cfg self inp)) =
    list_to_set (o_hex <$> accepted_list cfg inp).
Proof.
  intros (obs & Ea & ->)%cycle_ok_true. unfold cycle.
  rewrite (fetch_accepted _ _ _ Ea). cbn [fst current_aircraft]. split.
  - intros k. rewrite fold_temp_lookup. cbn.
    destruct (last (of_identity k obs)); [done|]. apply lookup_empty.
  - rewrite fold_temp_dom. cbn. rewrite dom_empty_L. set_solver.
Qed.

(** C6.  After a successful cycle the table holds, for every identity, the
    entry built from the last observation of that identity among those the
    cycle accepted, and nothing for an identity none of them has: its keys
    are exactly the identities observed in the cycle.  The previous table
    and the retention policy play no part. *)
Theorem table_replaced_wholesale self inp :
  cycle_ok cfg self inp = true →
  (∀ k, current_aircraft (cycle cfg self inp) !! k =
          o_entry <$> last (of_identity k (accepted_list cfg inp))) ∧
  dom (current_aircraft (cycle cfg self inp)) =
    list_to_set (o_hex <$> accepted_list cfg inp).
Proof. apply cycle_table. Qed.

(** ** The track store *)

Lemma identity_observed k obs :
  positions_of k obs ≠ [] ↔ k ∈ (list_to_set (o_hex <$> obs) : gset Key).
Proof.
  unfold positions_of. rewrite elem_of_list_to_set, list_elem_of_fmap.
  split.
  - intros Hne. destruct (of_identity k obs) as [|o l] eqn:El; [done|].
    assert (o ∈ of_identity k obs) as Hin by (rewrite El; apply list_elem_of_here).
    apply list_elem_of_filter in Hin as [Hk Hin]. by exists o.
  - intros (o & -> & Hin) Hnil. apply fmap_nil_inv in Hnil.
    assert (o ∈ of_identity (o_hex o) obs) as Ho
      by (by apply list_elem_of_filter).
    rewrite Hnil in Ho. by apply elem_of_nil in Ho.
Qed.

(** The tracks after a successful cycle. *)
Lemma cycle_tracks_accepted self inp obs k :
  accepted cfg inp = Some obs →
  aircraft_tracks (cycle cfg self inp) !! k =
    match positions_of k obs with
    | [] => if decide (KEEP_ALL_TRACKS cfg = 0%Z) then None
            else aircraft_tracks self !! k
    | ps => Some (extend_track cfg (default [] (aircraft_tracks self !! k)) ps)
    end.
Proof.
  intros Ea. unfold cycle. rewrite (fetch_accepted _ _ _ Ea).
  cbn [fst aircraft_tracks].
  pose proof (identity_observed k obs) as Hobs.
  case_decide.
  - rewrite prune_lookup, fold_tracks. cbn [snd].
    destruct (positions_of k obs).
    + rewrite decide_False; [done|]. intros Hin. by apply Hobs in Hin.
    + rewrite decide_True; [done|]. by apply Hobs.
  - rewrite fold_tracks. reflexivity.
Qed.

(** The tracks after any cycle under a policy that does not prune: those of
    the loop, whether it was left normally or not. *)
Lemma cycle_tracks_kept self inp :
  KEEP_ALL_TRACKS cfg ≠ 0%Z →
  ∃ obs, aircraft_tracks (cycle cfg self inp) =
           (foldl (record_observation cfg)
                  (fresh_locals, aircraft_tracks self) obs).2.
Proof.
  intros Hk. unfold cycle. destruct (accepted cfg inp) as [obs|] eqn:Ea.
  - rewrite (fetch_accepted _ _ _ Ea). exists obs. cbn.
    by rewrite decide_False.
  - destruct (fetch_rejected self _ Ea) as [obs ->]. by exists obs.
Qed.

Lemma cycle_tracks_cases self inp k :
  ∃ obs,
    aircraft_tracks (cycle cfg self inp) !! k =
      (foldl (record_observation cfg)
             (fresh_locals, aircraft_tracks self) obs).2 !! k ∨
    aircraft_tracks (cycle cfg self inp) !! k = None.
Proof.
  unfold cycle. destruct (accepted cfg inp) as [obs|] eqn:Ea.
  - rewrite (fetch_accepted _ _ _ Ea). exists obs. cbn [fst aircraft_tracks].
    case_decide; [|by left]. rewrite prune_lookup.
    case_decide; [by left|by right].
  - destruct (fetch_rejected self _ Ea) as [obs ->]. exists obs. by left.
Qed.

Lemma cycle_keeps_bound self inp :
  (1 ≤ MAX_TRACK_POINTS cfg)%Z →
  (∀ k t, aircraft_tracks self !! k = Some t →
          (length t ≤ Z.to_nat (MAX_TRACK_POINTS cfg))%nat) →
  ∀ k t, aircraft_tracks (cycle cfg self inp) !! k = Some t →
         (length t ≤ Z.to_nat (MAX_TRACK_POINTS cfg))%nat.
Proof.
  intros HN Hself k t.
  destruct (cycle_tracks_cases self inp k) as [obs [-> | ->]]; [|done].
  rewrite fold_tracks. cbn [snd].
  destruct (positions_of k obs) as [|p ps]; [apply Hself|].
  rewrite extend_track_cons by done. intros [= <-].
  rewrite length_most_recent. lia.
Qed.

Lemma run_bound inps k t :
  (1 ≤ MAX_TRACK_POINTS cfg)%Z →
  aircraft_tracks (run cfg inps) !! k = Some t →
  (length t ≤ Z.to_nat (MAX_TRACK_POINTS cfg))%nat.
Proof.
  intros HN. revert k t.
  induction inps as [|inp inps IH] using rev_ind; intros k t.
  - unfold run. cbn. by rewrite lookup_empty.
  - rewrite run_snoc. by apply cycle_keeps_bound.
Qed.

Lemma cycle_appends_fifo self inp k :
  (1 ≤ MAX_TRACK_POINTS cfg)%Z →
  cycle_ok cfg self inp = true →
  positions_of k (accepted_list cfg inp) ≠ [] →
  aircraft_tracks (cycle cfg self inp) !! k =
    Some (most_recent (Z.to_nat (MAX_TRACK_POINTS cfg))
            (default [] (aircraft_tracks self !! k) ++
             positions_of k (accepted_list cfg inp))).
Proof.
  intros HN (obs & Ea & ->)%cycle_ok_true Hps.
  rewrite (cycle_tracks_accepted _ _ _ _ Ea).
  destruct (positions_of k obs) as [|p ps]; [done|].
  by rewrite extend_track_cons.
Qed.

Lemma one_identity_per_cycle k inps :
  (1 ≤ MAX_TRACK_POINTS cfg)%Z →
  ∀ obs, obs ≠ [] →
  Forall2 (λ inp o, accepted cfg inp = Some [o] ∧ o_hex o = k) inps obs →
  aircraft_tracks (run cfg inps) !! k =
    Some (most_recent (Z.to_nat (MAX_TRACK_POINTS cfg)) (o_pos <$> obs)).
Proof.
  intros HN. induction inps as [|inp inps IH] using rev_ind; intros obs Hne HF.
  { apply Forall2_nil_inv_l in HF. by subst. }
  apply Forall2_app_inv_l in HF as (obs' & os & HF' & Hlast & ->).
  apply Forall2_cons_inv_l in Hlast as (o & rest & [Ea Hk] & Hnil & ->).
  apply Forall2_nil_inv_l in Hnil as ->.
  rewrite run_snoc, cycle_appends_fifo; [|done| |].
  - rewrite (accepted_list_Some _ _ Ea). unfold positions_of.
    rewrite of_identity_cons, decide_True by done.
    cbn [of_identity filter list_filter fmap list_fmap].
    rewrite fmap_app. cbn [fmap list_fmap].
    destruct obs' as [|o' obs'].
    + apply Forall2_nil_inv_r in HF' as ->. unfold run. cbn [foldl init aircraft_tracks].
      by rewrite lookup_empty.
    + rewrite (IH (o' :: obs')) by done. cbn [default from_option].
      f_equal. by apply most_recent_snoc; lia.
  - apply cycle_ok_accepted. by eexists.
  - rewrite (accepted_list_Some _ _ Ea). unfold positions_of.
    by rewrite of_identity_cons, decide_True.
Qed.

(** X25.  With a maximum of at least one point, after any number of cycles
    every track has at most [MAX_TRACK_POINTS] positions.  Limiting a track
    keeps its most recent [MAX_TRACK_POINTS] positions, so that a successful
    cycle leaves, for each identity it observed, the most recent
    [MAX_TRACK_POINTS] positions of the old track followed by the cycle's
    positions of that identity: the oldest are the ones that go.  After
    cycles that each report the one identity [k] once, the track of [k] is
    the most recent [MAX_TRACK_POINTS] of the reported positions (with 11
    cycles and a maximum of 10, those of cycles 2 to 11). *)
Theorem track_bounded_fifo :
  (1 ≤ MAX_TRACK_POINTS cfg)%Z →
  (∀ inps k t, aircraft_tracks (run cfg inps) !! k = Some t →
     (length t ≤ Z.to_nat (MAX_TRACK_POINTS cfg))%nat) ∧
  (∀ t : Track,
     limit_track cfg t = most_recent (Z.to_nat (MAX_TRACK_POINTS cfg)) t) ∧
  (∀ self inp k, cycle_ok cfg self inp = true →
     positions_of k (accepted_list cfg inp) ≠ [] →
     aircraft_tracks (cycle cfg self inp) !! k =
       Some (most_recent (Z.to_nat (MAX_TRACK_POINTS cfg))
               (default [] (aircraft_tracks self !! k) ++
                positions_of k (accepted_list cfg inp)))) ∧
  (∀ k inps obs, obs ≠ [] →
     Forall2 (λ inp o, accepted cfg inp = Some [o] ∧ o_hex o = k) inps obs →
     aircraft_tracks (run cfg inps) !! k =
       Some (most_recent (Z.to_nat (MAX_TRACK_POINTS cfg)) (o_pos <$> obs))).
Proof.
  intros HN. split; [|split; [|split]].
  - intros inps k t. by apply run_bound.
  - intros t. by apply limit_track_most_recent.
  - intros self inp k. by apply cycle_appends_fifo.
  - intros k inps obs. by apply one_identity_per_cycle.
Qed.

Lemma fold_tracks_is_Some obs k st :
  is_Some (st.2 !! k) →
  is_Some ((foldl (record_observation cfg) st obs).2 !! k).
Proof.
  intros Hk. rewrite fold_tracks. by destruct (positions_of k obs).
Qed.

(** C5.  When [KEEP_ALL_TRACKS] is 0, a successful cycle leaves no track for
    an identity that none of its accepted observations has.  When
    [KEEP_ALL_TRACKS] is 1, an identity that has a track keeps one through
    any further cycles, successful or not, whether it is observed again or
    not. *)
Theorem retention_policy :
  (KEEP_ALL_TRACKS cfg = 0%Z →
   ∀ self inp k, cycle_ok cfg self inp = true →
     k ∉ o_hex <$> accepted_list cfg inp →
     aircraft_tracks (cycle cfg self inp) !! k = None) ∧
  (KEEP_ALL_TRACKS cfg = 1%Z →
   ∀ self inps k, is_Some (aircraft_tracks self !! k) →
     is_Some (aircraft_tracks (foldl (cycle cfg) self inps) !! k)).
Proof.
  split.
  - intros Hp self inp k (obs & Ea & ->)%cycle_ok_true Hk.
    rewrite (cycle_tracks_accepted _ _ _ _ Ea).
    destruct (positions_of k obs) eqn:Eps.
    + by rewrite decide_True.
    + exfalso. apply Hk. apply (elem_of_list_to_set (C := gset Key)).
      apply identity_observed. by rewrite Eps.
  - intros Hkeep self inps. revert self.
    induction inps as [|inp inps IH]; intros self k Hk; [done|].
    cbn [foldl]. apply IH.
    destruct (cycle_tracks_kept self inp) as [obs ->]; [lia|].
    by apply fold_tracks_is_Some.
Qed.

(** ** One record *)

(** What a record that is accepted has been found to hold. *)
Lemma observe_Next now ac o :
  observe cfg now ac = Next o →
  ∃ items, ac = JObj items ∧
    o_lat o = default JNull (assoc "lat" items) ∧
    o_lon o = default JNull (assoc "lon" items) ∧
    is_None (o_lat o) = false ∧ is_None (o_lon o) = false ∧
    haversine (RECEIVER_LAT cfg, RECEIVER_LON cfg) (o_lat o, o_lon o) =
      Some (o_dist o) ∧
    hashable (default (JStr now) (assoc "hex" items)) = Some (o_hex o) ∧
    o_gs_raw o = default (JStr "N/A") (assoc "gs" items) ∧
    (if negb (is_None (gs_field ac)) && negb (eq_str (gs_field ac) "N/A")
     then match o_gs o with
          | Some x => py_float (gs_field ac) = FloatOk x
          | None => py_float (gs_field ac) = FloatValueError
          end
     else o_gs o = None).
Proof.
  intros H. destruct ac as [| | | | |items]; try discriminate.
  exists items. split; [done|].
  unfold observe in H. cbn [dict_get mbind step_bind] in H.
  destruct (is_None _ || is_None _ || is_None _) eqn:E1; [discriminate|].
  apply orb_false_elim in E1 as [E1 _]. apply orb_false_elim in E1 as [Elat Elon].
  match type of H with
  | (match py_float ?a with _ => _ end ≫= _) = _ =>
      destruct (py_float a) eqn:E2; try discriminate
  end.
  cbn [mbind step_bind] in H.
  destruct (haversine _ _) eqn:E3; [|discriminate].
  cbn [or_raise mbind step_bind] in H.
  cbn [gs_field].
  destruct (negb _ && negb _) eqn:E4;
    [destruct (py_float (default JNull (assoc "gs" items))) eqn:E5;
     try discriminate|];
    cbn [mbind step_bind] in H;
    (destruct (hashable _) eqn:E6; [|discriminate]);
    cbn [or_raise mbind step_bind] in H;
    (destruct (py_strip _) eqn:E7; try discriminate);
    cbn [mbind step_bind] in H; injection H as <-; cbn; done.
Qed.

(** ** Groundspeed *)

Lemma is_None_true (v : json) : is_None v = true ↔ v = JNull.
Proof. destruct v; split; done. Qed.

Lemma eq_str_true (v : json) s : eq_str v s = true ↔ v = JStr s.
Proof.
  destruct v; cbn; try (split; done).
  rewrite bool_decide_eq_true. split; congruence.
Qed.

Lemma observe_gs now ac o :
  observe cfg now ac = Next o → (o_gs o = None ↔ gs_unknown ac).
Proof.
  intros (items & -> & _ & _ & _ & _ & _ & _ & _ & Hgs)%observe_Next.
  unfold gs_unknown.
  destruct (is_None (gs_field (JObj items))) eqn:En.
  { apply is_None_true in En. split; [by left|done]. }
  destruct (eq_str (gs_field (JObj items)) "N/A") eqn:Es.
  { apply eq_str_true in Es. split; [by right; left|done]. }
  cbn [negb andb] in Hgs. destruct (o_gs o) as [x|].
  - split; [done|]. intros [Hn|[Hs|Hx]].
    + apply is_None_true in Hn. congruence.
    + apply eq_str_true in Hs. congruence.
    + by destruct (Hx x).
  - split; [|done]. intros _. right; right. intros x. by rewrite Hgs.
Qed.

Lemma hist_gs_known self vg g :
  update_hist_gs_plot self = Some vg → g ∈ vg →
  ∃ x, g = Some x ∧ g ∈ all_groundspeeds self.
Proof.
  unfold update_hist_gs_plot. intros Hvg Hg.
  assert (g ∈ valid_gs self) as Hin.
  { destruct (valid_gs self); [done|]. by injection Hvg as <-. }
  apply list_elem_of_filter in Hin as [Hne Hin].
  destruct g as [x|]; [by exists x|done].
Qed.

Lemma scatter_gs_known self pg pa g :
  update_scatter_gs_plot self = Some (pg, pa) → g ∈ pg →
  ∃ x, g = Some x ∧ g ∈ all_groundspeeds self.
Proof.
  unfold update_scatter_gs_plot. intros Hvd Hg.
  assert (g ∈ (valid_data self).*1) as Hin.
  { destruct (valid_data self); [done|]. by injection Hvd as <- _. }
  apply list_elem_of_fmap in Hin as ([g' a] & -> & Hin).
  apply list_elem_of_filter in Hin as [Hne Hin]. cbn in *.
  apply elem_of_zip_l in Hin.
  destruct g' as [x|]; [by exists x|done].
Qed.

Lemma known_of_zip (gss : list (option num)) (alts : list num) :
  length gss = length alts →
  (filter (λ p : option num * num, p.1 ≠ None) (zip gss alts)).*1 =
    filter (λ gs, gs ≠ None) gss.
Proof.
  revert alts. induction gss as [|g gss IH]; intros [|a alts] Hlen; try done.
  cbn [zip zip_with]. rewrite !filter_cons. cbn [fst].
  case_decide; cbn [fmap list_fmap fst]; rewrite IH; try done;
    cbn [length] in Hlen; lia.
Qed.

Lemma scatter_gs_exact inps pg pa :
  update_scatter_gs_plot (run cfg inps) = Some (pg, pa) →
  pg = filter (λ gs, gs ≠ None) (all_groundspeeds (run cfg inps)).
Proof.
  unfold update_scatter_gs_plot. intros Hvd.
  assert (pg = (valid_data (run cfg inps)).*1) as ->.
  { destruct (valid_data (run cfg inps)); [done|]. by injection Hvd as <- _. }
  unfold valid_data. apply known_of_zip.
  destruct (run_series inps) as (_ & -> & ->). by rewrite !length_fmap.
Qed.

(** X26.  An accepted record has the unknown marker [None] as its
    groundspeed exactly when its [gs] field is absent or null, is the
    sentinel, or is not converted by [float]; [None] is not a number.  The
    groundspeed series is made of these values, one per accepted
    observation.  Both groundspeed plots are handed known speeds only, each
    of them an entry of the series as it stands there; after any run, what
    each plot is handed is the series with the unknown markers left out,
    not replaced. *)
Theorem unknown_groundspeed_marked_and_filtered :
  (∀ now ac o, observe cfg now ac = Next o → (o_gs o = None ↔ gs_unknown ac)) ∧
  (∀ inps, all_groundspeeds (run cfg inps) = o_gs <$> all_accepted cfg inps) ∧
  (∀ self vg, update_hist_gs_plot self = Some vg →
     vg = filter (λ gs, gs ≠ None) (all_groundspeeds self) ∧
     ∀ g, g ∈ vg → ∃ x, g = Some x ∧ g ∈ all_groundspeeds self) ∧
  (∀ self pg pa, update_scatter_gs_plot self = Some (pg, pa) →
     ∀ g, g ∈ pg → ∃ x, g = Some x ∧ g ∈ all_groundspeeds self) ∧
  (∀ inps pg pa, update_scatter_gs_plot (run cfg inps) = Some (pg, pa) →
     pg = filter (λ gs, gs ≠ None) (all_groundspeeds (run cfg inps))).
Proof.
  split; [apply observe_gs|]. split; [intros inps; apply run_series|].
  split; [|split].
  - intros self vg Hvg. split; [|intros g; by apply hist_gs_known].
    unfold update_hist_gs_plot in Hvg. fold (valid_gs self).
    destruct (valid_gs self); [done|]. by injection Hvg as <-.
  - intros self pg pa Hp g. by apply scatter_gs_known with pa.
  - intros inps pg pa. apply scatter_gs_exact.
Qed.

(** ** Synthetic identities *)

(** C9, as the code has it.  A record without the [hex] field gets as its
    key the text of the clock reading taken while it is processed.  Two such
    records get the same key exactly when their two readings have the same
    text. *)
Theorem synthetic_key_is_clock_reading now1 now2 ac1 ac2 o1 o2 :
  lacks_hex ac1 → lacks_hex ac2 →
  observe cfg now1 ac1 = Next o1 → observe cfg now2 ac2 = Next o2 →
  o_hex o1 = KStr now1 ∧ o_hex o2 = KStr now2 ∧
  (o_hex o1 = o_hex o2 ↔ now1 = now2).
Proof.
  intros (items1 & -> & Hh1) (items2 & -> & Hh2) Ho1 Ho2.
  apply observe_Next in Ho1 as (? & [= <-] & _ & _ & _ & _ & _ & Hk1 & _).
  apply observe_Next in Ho2 as (? & [= <-] & _ & _ & _ & _ & _ & Hk2 & _).
  rewrite Hh1 in Hk1. rewrite Hh2 in Hk2. cbn in Hk1, Hk2.
  injection Hk1 as <-. injection Hk2 as <-.
  split; [done|]. split; [done|]. split; congruence.
Qed.

(** ** The same identity more than once in a snapshot *)

Lemma extend_track_step (t : Track) p ps :
  extend_track cfg t (p :: ps) = extend_track cfg (limit_track cfg (t ++ [p])) ps.
Proof. reflexivity. Qed.

Lemma extend_track_no_limit (t : Track) ps :
  (Z.of_nat (length t + length ps) ≤ MAX_TRACK_POINTS cfg)%Z →
  extend_track cfg t ps = t ++ ps.
Proof.
  revert t. induction ps as [|p ps IH]; intros t Hlen.
  - cbn. by rewrite app_nil_r.
  - assert (limit_track cfg (t ++ [p]) = t ++ [p]) as Hl.
    { unfold limit_track.
      destruct (Z.ltb_spec (MAX_TRACK_POINTS cfg) (Z.of_nat (length (t ++ [p]))))
        as [Hlt|_]; [|done].
      rewrite length_app in Hlt. cbn [length] in *. lia. }
    rewrite extend_track_step, Hl, IH.
    + by rewrite <- app_assoc.
    + rewrite length_app. cbn [length] in *. lia.
Qed.

Lemma size_identities_le obs :
  (size (list_to_set (o_hex <$> obs) : gset Key) ≤ length obs)%nat.
Proof.
  induction obs as [|o obs IH]; cbn [fmap list_fmap list_to_set length].
  - by rewrite size_empty.
  - rewrite size_union_alt, size_singleton.
    assert (size (list_to_set (o_hex <$> obs) ∖ {[o_hex o]} : gset Key)
            ≤ size (list_to_set (o_hex <$> obs) : gset Key))%nat
      by (apply subseteq_size; set_solver).
    lia.
Qed.

Lemma size_identities_lt k obs :
  (2 ≤ length (of_identity k obs))%nat →
  (size (list_to_set (o_hex <$> obs) : gset Key) < length obs)%nat.
Proof.
  induction obs as [|o obs IH]; [cbn; lia|].
  rewrite of_identity_cons. cbn [fmap list_fmap list_to_set length].
  case_decide as Hk.
  - cbn [length]. intros Hlen.
    assert (k ∈ (list_to_set (o_hex <$> obs) : gset Key)) as Hin.
    { apply identity_observed. unfold positions_of.
      destruct (of_identity k obs); [cbn in Hlen; lia|done]. }
    replace ({[o_hex o]} ∪ list_to_set (o_hex <$> obs) : gset Key)
      with (list_to_set (o_hex <$> obs) : gset Key) by set_solver.
    pose proof (size_identities_le obs). lia.
  - intros Hlen. specialize (IH Hlen).
    assert (size ({[o_hex o]} ∪ list_to_set (o_hex <$> obs) : gset Key)
            ≤ 1 + size (list_to_set (o_hex <$> obs) : gset Key))%nat.
    { rewrite size_union_alt, size_singleton.
      assert (size (list_to_set (o_hex <$> obs) ∖ {[o_hex o]} : gset Key)
              ≤ size (list_to_set (o_hex <$> obs) : gset Key))%nat
        by (apply subseteq_size; set_solver).
      lia. }
    lia.
Qed.

(** C10.  When [k] is the identity of two or more of the observations a
    successful cycle accepts: the track of [k] is the old one extended, one
    position after the other and limited after each, by the position of
    every one of these observations (all of them are there when the limit is
    not reached); each series grows by one entry per accepted observation;
    the table has the single entry of the last of them under [k], and fewer
    entries than the series have gained. *)
Theorem duplicate_identity_in_snapshot self inp k :
  cycle_ok cfg self inp = true →
  (2 ≤ length (of_identity k (accepted_list cfg inp)))%nat →
  (aircraft_tracks (cycle cfg self inp) !! k =
     Some (extend_track cfg (default [] (aircraft_tracks self !! k))
             (positions_of k (accepted_list cfg inp))) ∧
   length (positions_of k (accepted_list cfg inp)) =
     length (of_identity k (accepted_list cfg inp)) ∧
   ((Z.of_nat (length (default [] (aircraft_tracks self !! k)) +
               length (positions_of k (accepted_list cfg inp)))
      ≤ MAX_TRACK_POINTS cfg)%Z →
    aircraft_tracks (cycle cfg self inp) !! k =
      Some (default [] (aircraft_tracks self !! k) ++
            positions_of k (accepted_list cfg inp)))) ∧
  (length (all_distances (cycle cfg self inp)) =
     length (all_distances self) + length (accepted_list cfg inp) ∧
   length (all_altitudes (cycle cfg self inp)) =
     length (all_altitudes self) + length (accepted_list cfg inp) ∧
   length (all_groundspeeds (cycle cfg self inp)) =
     length (all_groundspeeds self) + length (accepted_list cfg inp)) ∧
  (current_aircraft (cycle cfg self inp) !! k =
     o_entry <$> last (of_identity k (accepted_list cfg inp)) ∧
   (size (current_aircraft (cycle cfg self inp))
      < length (accepted_list cfg inp))%nat).
Proof.
  intros Hok Hdup.
  assert (aircraft_tracks (cycle cfg self inp) !! k =
     Some (extend_track cfg (default [] (aircraft_tracks self !! k))
             (positions_of k (accepted_list cfg inp)))) as Htrack.
  { destruct (cycle_ok_true _ _ Hok) as (obs & Ea & Eobs).
    rewrite Eobs in *. rewrite (cycle_tracks_accepted _ _ _ _ Ea).
    unfold positions_of.
    destruct (of_identity k obs); [cbn in Hdup; lia|done]. }
  split; [|split].
  - split; [done|]. split; [unfold positions_of; by rewrite length_fmap|].
    intros Hlen. rewrite Htrack. f_equal. by apply extend_track_no_limit.
  - destruct (cycle_series self inp) as (-> & -> & ->).
    by rewrite !length_app, !length_fmap.
  - destruct (cycle_table self inp Hok) as [Hlook Hdom].
    split; [apply Hlook|].
    rewrite <- size_dom, Hdom. by apply size_identities_lt with k.
Qed.

(** ** Records the loop does not accept *)

(** A record without latitude, longitude or altitude is skipped. *)
Lemma missing_field_skipped now items st :
  is_None (default JNull (assoc "lat" items)) = true ∨
  is_None (default JNull (assoc "lon" items)) = true ∨
  is_None (default (default JNull (assoc "alt_geom" items))
             (assoc "alt_baro" items)) = true →
  loop_body cfg now (JObj items) st = Continue.
Proof.
  intros H. rewrite loop_body_observe. unfold observe.
  cbn [dict_get mbind step_bind].
  destruct H as [-> | [-> | ->]]; by rewrite ?orb_true_r.
Qed.

(** An altitude that is a string but not the text of a number is skipped:
    this is the [ValueError] the loop catches. *)
Lemma text_altitude_skipped now items st s :
  is_None (default JNull (assoc "lat" items)) = false →
  is_None (default JNull (assoc "lon" items)) = false →
  assoc "alt_baro" items = Some (JStr s) →
  s ≠ "ground" → float_of_str s = None →
  loop_body cfg now (JObj items) st = Continue.
Proof.
  intros Hlat Hlon Halt Hs Hf. rewrite loop_body_observe. unfold observe.
  cbn [dict_get mbind step_bind].
  rewrite Hlat, Hlon, Halt. cbn [default from_option id is_None orb eq_str].
  rewrite bool_decide_eq_false_2 by done.
  cbn [py_float]. by rewrite Hf.
Qed.

(** An altitude that is a list or a dict is a [TypeError], which the loop
    does not catch: the iteration raises, whatever the builtins are. *)
Lemma non_scalar_altitude_raises now items st v :
  is_None (default JNull (assoc "lat" items)) = false →
  is_None (default JNull (assoc "lon" items)) = false →
  assoc "alt_baro" items = Some v →
  (∃ l, v = JArr l) ∨ (∃ d, v = JObj d) →
  loop_body cfg now (JObj items) st = Raise.
Proof.
  intros Hlat Hlon Halt Hv. rewrite loop_body_observe. unfold observe.
  cbn [dict_get mbind step_bind].
  rewrite Hlat, Hlon, Halt.
  destruct Hv as [[l ->] | [d ->]]; reflexivity.
Qed.

(** A groundspeed that is a list or a dict is not converted by [float], and
    it is a [TypeError] as well: a record that is well-formed up to its
    groundspeed raises, and no marker is recorded for it. *)
Lemma non_scalar_groundspeed_raises now items st alt v :
  is_None (default JNull (assoc "lat" items)) = false →
  is_None (default JNull (assoc "lon" items)) = false →
  default (default JNull (assoc "alt_geom" items)) (assoc "alt_baro" items)
    = JNum alt →
  is_Some (float_of_num alt) →
  is_Some (haversine (RECEIVER_LAT cfg, RECEIVER_LON cfg)
             (default JNull (assoc "lat" items),
              default JNull (assoc "lon" items))) →
  assoc "gs" items = Some v →
  (∃ l, v = JArr l) ∨ (∃ d, v = JObj d) →
  gs_unknown (JObj items) ∧ loop_body cfg now (JObj items) st = Raise.
Proof.
  intros Hlat Hlon Halt [x Hx] [d Hd] Hgs Hv. split.
  - right; right. intros y. cbn [gs_field]. rewrite Hgs.
    destruct Hv as [[l ->] | [d' ->]]; done.
  - rewrite loop_body_observe. unfold observe.
    cbn [dict_get mbind step_bind].
    rewrite Hlat, Hlon, Halt. cbn [is_None orb eq_str py_float].
    rewrite Hx. cbn [from_option mbind step_bind]. rewrite Hd.
    cbn [or_raise mbind step_bind]. rewrite Hgs.
    destruct Hv as [[l ->] | [d' ->]]; reflexivity.
Qed.

(** An element of the collection that is not a dict raises as well. *)
Lemma non_dict_record_raises now ac st :
  (∀ items, ac ≠ JObj items) → loop_body cfg now ac st = Raise.
Proof.
  intros Hac. rewrite loop_body_observe.
  destruct ac as [| | | | |items]; try reflexivity. by destruct (Hac items).
Qed.

End Properties.

(** * Further properties of the cycle *)

Section CycleEdges.
Context `{Nums : PyNumbers} `{Builtins : !PyBuiltins}.
Variable cfg : Config.

Implicit Types (o : Observation) (obs : list Observation) (k : Key)
  (self : AdsbTracker) (inp : CycleInput).

(** Everything an accepted record has been found to hold about its
    altitude and its label. *)
Lemma observe_fields now items o :
  observe cfg now (JObj items) = Next o →
  let alt := default (default JNull (assoc "alt_geom" items))
                     (assoc "alt_baro" items) in
  is_None alt = false ∧
  py_float (if eq_str alt "ground" then JNum (num_of_bool false) else alt)
    = FloatOk (o_alt o) ∧
  py_strip (default (JStr "N/A") (assoc "flight" items)) = Next (o_flight o).
Proof.
  intros H. unfold observe in H. cbn [dict_get mbind step_bind] in H.
  destruct (is_None _ || is_None _ || is_None _) eqn:E1; [discriminate|].
  apply orb_false_elim in E1 as [_ Ealt].
  match type of H with
  | (match py_float ?a with _ => _ end ≫= _) = _ =>
      destruct (py_float a) eqn:E2; try discriminate
  end.
  cbn [mbind step_bind] in H.
  destruct (haversine _ _) eqn:E3; [|discriminate].
  cbn [or_raise mbind step_bind] in H.
  destruct (negb _ && negb _) eqn:E4;
    [destruct (py_float (default JNull (assoc "gs" items))) eqn:E5;
     try discriminate|];
    cbn [mbind step_bind] in H;
    (destruct (hashable _) eqn:E6; [|discriminate]);
    cbn [or_raise mbind step_bind] in H;
    (destruct (py_strip _) eqn:E7; try discriminate);
    cbn [mbind step_bind] in H; injection H as <-; cbn; done.
Qed.

(** X1.  A cycle that fails, for whatever reason, leaves the table of
    current aircraft and the three cumulative series exactly as they
    were. *)
Theorem failed_cycle_keeps_table_and_series self inp :
  cycle_ok cfg self inp = false →
  current_aircraft (cycle cfg self inp) = current_aircraft self ∧
  all_distances (cycle cfg self inp) = all_distances self ∧
  all_altitudes (cycle cfg self inp) = all_altitudes self ∧
  all_groundspeeds (cycle cfg self inp) = all_groundspeeds self.
Proof. apply failed_cycle_table_and_series. Qed.

(** X2.  When there is no response, when the payload is not a dict, or when
    its [aircraft] entry is a null, a boolean or a number, the method
    returns [False] and the tracker is exactly what it was, tracks
    included. *)
Theorem unusable_payload_changes_nothing response clock self :
  (response = None ∨
   ∃ data, response = Some data ∧
     ((∀ items, data ≠ JObj items) ∨
      ∃ items v, data = JObj items ∧ assoc "aircraft" items = Some v ∧
        (v = JNull ∨ (∃ b, v = JBool b) ∨ ∃ x, v = JNum x))) →
  fetch_aircraft_data cfg response clock self = (self, false).
Proof.
  intros H. apply fetch_no_collection.
  destruct H as [->|(data & -> & H)]; [by left|right].
  exists data. split; [done|]. intros acs.
  destruct H as [Hnd|(items & v & -> & Hv & Hs)].
  - destruct data as [| | | | |items]; try done. by destruct (Hnd items).
  - unfold aircraft_of. cbn [dict_get mbind step_bind]. rewrite Hv.
    destruct Hs as [->|[[b ->]|[x ->]]]; done.
Qed.

Lemma prune_empty (tracks : gmap Key Track) : prune ∅ tracks = ∅.
Proof.
  apply map_eq. intros k. rewrite prune_lookup, lookup_empty.
  by rewrite decide_False by set_solver.
Qed.

(** X3.  A payload without an [aircraft] entry, or with an empty list
    there, is a successful cycle: the table becomes empty, the series stay
    as they are, and every track is deleted when [KEEP_ALL_TRACKS] is 0 and
    kept otherwise. *)
Theorem empty_snapshot_clears_table items clock self :
  assoc "aircraft" items = None ∨ assoc "aircraft" items = Some (JArr []) →
  fetch_aircraft_data cfg (Some (JObj items)) clock self =
    ({| all_distances := all_distances self;
        all_altitudes := all_altitudes self;
        all_groundspeeds := all_groundspeeds self;
        current_aircraft := ∅;
        aircraft_tracks :=
          if decide (KEEP_ALL_TRACKS cfg = 0%Z) then ∅
          else aircraft_tracks self |}, true).
Proof.
  intros H. unfold fetch_aircraft_data, aircraft_of.
  cbn [dict_get mbind step_bind].
  assert (default (JArr []) (assoc "aircraft" items) = JArr []) as ->
    by (by destruct H as [-> | ->]).
  cbn. rewrite !app_nil_r. by rewrite prune_empty.
Qed.

(** X4.  A record with a position whose altitude is the text [ground] is
    never skipped, and when it is accepted its altitude is [float(0)]. *)
Theorem ground_altitude_is_zero now items :
  is_None (default JNull (assoc "lat" items)) = false →
  is_None (default JNull (assoc "lon" items)) = false →
  default (default JNull (assoc "alt_geom" items)) (assoc "alt_baro" items)
    = JStr "ground" →
  observe cfg now (JObj items) ≠ Continue ∧
  ∀ o, observe cfg now (JObj items) = Next o →
       float_of_num (num_of_bool false) = Some (o_alt o).
Proof.
  intros Hlat Hlon Halt. split.
  - unfold observe. cbn [dict_get mbind step_bind].
    rewrite Hlat, Hlon, Halt. cbn [is_None orb eq_str].
    rewrite bool_decide_eq_true_2 by done. cbn [py_float].
    destruct (float_of_num (num_of_bool false)); [|done].
    cbn [from_option mbind step_bind].
    destruct (haversine _ _); [|done]. cbn [or_raise mbind step_bind].
    repeat (first [ match goal with
                    | |- context [match ?x with _ => _ end] => destruct x
                    end
                  | destruct (hashable _)
                  | match goal with
                    | |- context [py_strip ?v] => destruct v
                    end ];
            cbn [or_raise py_strip mbind step_bind]; try done).
  - intros o (_ & Hf & _)%observe_fields. rewrite Halt in Hf.
    cbn [eq_str] in Hf. rewrite bool_decide_eq_true_2 in Hf by done.
    cbn [py_float] in Hf.
    destruct (float_of_num (num_of_bool false)); cbn in Hf; congruence.
Qed.

(** X5.  The altitude of an accepted record is read from [alt_baro]
    whenever the record has that field, and from [alt_geom] only when the
    field is absent.  A record whose [alt_baro] is null is skipped, also
    when its [alt_geom] holds a number. *)
Theorem altitude_prefers_barometric now items :
  (assoc "alt_baro" items = Some JNull →
   ∀ st, loop_body cfg now (JObj items) st = Continue) ∧
  (∀ o v, observe cfg now (JObj items) = Next o →
     assoc "alt_baro" items = Some v →
     py_float (if eq_str v "ground" then JNum (num_of_bool false) else v)
       = FloatOk (o_alt o)) ∧
  (∀ o v, observe cfg now (JObj items) = Next o →
     assoc "alt_baro" items = None → assoc "alt_geom" items = Some v →
     py_float (if eq_str v "ground" then JNum (num_of_bool false) else v)
       = FloatOk (o_alt o)).
Proof.
  split; [|split].
  - intros Hb st. apply missing_field_skipped. right; right.
    by rewrite Hb.
  - intros o v (_ & Hf & _)%observe_fields Hb. by rewrite Hb in Hf.
  - intros o v (_ & Hf & _)%observe_fields Hb Hg. by rewrite Hb, Hg in Hf.
Qed.

(** X6.  The label of an accepted record is its [flight] text with the
    white space at both ends removed, and [N/A] when the record has no
    [flight] field.  A record whose [flight] is present but is not a text
    (a null, a number) is never accepted. *)
Theorem flight_label_stripped now items :
  (∀ o, observe cfg now (JObj items) = Next o →
     assoc "flight" items = None → o_flight o = "N/A") ∧
  (∀ o s, observe cfg now (JObj items) = Next o →
     assoc "flight" items = Some (JStr s) → o_flight o = strip s) ∧
  (∀ v, assoc "flight" items = Some v → (∀ s, v ≠ JStr s) →
     ∀ o, observe cfg now (JObj items) ≠ Next o).
Proof.
  split; [|split].
  - intros o (_ & _ & Hs)%observe_fields Hn. rewrite Hn in Hs.
    cbn in Hs. by injection Hs as <-.
  - intros o s (_ & _ & Hs)%observe_fields Hf. rewrite Hf in Hs.
    cbn in Hs. by injection Hs as <-.
  - intros v Hf Hv o (_ & _ & Hs)%observe_fields. rewrite Hf in Hs.
    destruct v as [| | |s| |]; try done. by destruct (Hv s).
Qed.

Lemma last_drop {A} (n : nat) (l : list A) :
  (n < length l)%nat → last (drop n l) = last l.
Proof.
  intros Hn. rewrite !last_lookup, lookup_drop, length_drop.
  f_equal. lia.
Qed.

Lemma limit_track_last (t : Track) p :
  (0 ≤ MAX_TRACK_POINTS cfg)%Z → last (limit_track cfg (t ++ [p])) = Some p.
Proof.
  intros HN. unfold limit_track, slice_from.
  destruct (Z.ltb_spec (MAX_TRACK_POINTS cfg) (Z.of_nat (length (t ++ [p]))))
    as [Hlt|_]; [|apply last_snoc].
  rewrite last_drop; [apply last_snoc|].
  destruct (Z.ltb_spec (- MAX_TRACK_POINTS cfg) 0); lia.
Qed.

Lemma extend_track_last (t : Track) ps :
  (0 ≤ MAX_TRACK_POINTS cfg)%Z → ps ≠ [] →
  last (extend_track cfg t ps) = last ps.
Proof.
  intros HN Hne. destruct ps as [|p ps _] using rev_ind; [done|].
  unfold extend_track. rewrite foldl_snoc, last_snoc.
  by apply limit_track_last.
Qed.

Lemma cycle_track_ends_at_entry self inp k e :
  cycle_ok cfg self inp = true → (0 ≤ MAX_TRACK_POINTS cfg)%Z →
  current_aircraft (cycle cfg self inp) !! k = Some e →
  ∃ t, aircraft_tracks (cycle cfg self inp) !! k = Some t ∧
       last t = Some (e_lat e, e_lon e).
Proof.
  intros Hok HN He.
  destruct (cycle_table cfg self inp Hok) as [Hlook _].
  destruct (cycle_ok_true cfg _ _ Hok) as (obs & Ea & Eobs).
  rewrite Eobs in *. rewrite Hlook in He.
  destruct (last (of_identity k obs)) as [o|] eqn:El; [|done].
  injection He as <-.
  apply last_Some in El as [l' El].
  rewrite (cycle_tracks_accepted cfg _ _ _ _ Ea).
  assert (positions_of k obs = (o_pos <$> l') ++ [o_pos o]) as Hps
    by (unfold positions_of; by rewrite El, fmap_app).
  destruct (positions_of k obs) as [|p ps] eqn:Ep.
  { by destruct (o_pos <$> l'). }
  eexists. split; [done|].
  rewrite extend_track_last by done. rewrite Hps. apply last_snoc.
Qed.

Lemma cycle_same_keys self inp :
  cycle_ok cfg self inp = true → KEEP_ALL_TRACKS cfg = 0%Z →
  dom (aircraft_tracks (cycle cfg self inp)) =
    dom (current_aircraft (cycle cfg self inp)).
Proof.
  intros Hok Hk.
  destruct (cycle_table cfg self inp Hok) as [_ Hdom].
  destruct (cycle_ok_true cfg _ _ Hok) as (obs & Ea & Eobs).
  rewrite Eobs in *. apply set_eq. intros k.
  rewrite Hdom, elem_of_dom, (cycle_tracks_accepted cfg _ _ _ _ Ea).
  rewrite <- identity_observed, decide_True by done.
  destruct (positions_of k obs); split; try done.
Qed.

(** X7.  After a successful cycle, with a maximum of track points that is
    not negative, every aircraft in the table has a track and the last
    point of that track is the position the table holds for it.  When
    [KEEP_ALL_TRACKS] is 0 the tracks and the table have the same keys. *)
Theorem table_and_tracks_agree self inp :
  cycle_ok cfg self inp = true → (0 ≤ MAX_TRACK_POINTS cfg)%Z →
  (∀ k e, current_aircraft (cycle cfg self inp) !! k = Some e →
     ∃ t, aircraft_tracks (cycle cfg self inp) !! k = Some t ∧
          last t = Some (e_lat e, e_lon e)) ∧
  (KEEP_ALL_TRACKS cfg = 0%Z →
   dom (aircraft_tracks (cycle cfg self inp)) =
     dom (current_aircraft (cycle cfg self inp))).
Proof.
  intros Hok HN. split.
  - intros k e. by apply cycle_track_ends_at_entry.
  - by apply cycle_same_keys.
Qed.

End CycleEdges.


(** * Properties of the window *)

Lemma clicks_snoc bs b : clicks (bs ++ [b]) = press (clicks bs) b.
Proof. unfold clicks. by rewrite foldl_snoc. Qed.

Lemma clicks_invariant bs :
  (8 ≤ current_zoom (clicks bs) ≤ 36)%Z ∧
  label_toggle_button (clicks bs) =
    if show_labels (clicks bs) then "Labels: ON" else "Labels: OFF".
Proof.
  induction bs as [|b bs [Hz Ht]] using rev_ind.
  - split; [unfold clicks, init_ui, MAP_START_ZOOM; cbn; lia|reflexivity].
  - rewrite clicks_snoc.
    destruct b; unfold press, toggle_labels, zoom_in, zoom_out;
      cbn [current_zoom show_labels label_toggle_button];
      (split; [lia|]); try done.
Qed.

(** X8.  Whatever buttons are clicked, in whatever order, the zoom level
    stays between 4 and 18, and the text of the label button says [ON]
    exactly when labels are shown. *)
Theorem window_state_invariant bs :
  (8 ≤ current_zoom (clicks bs) ≤ 36)%Z ∧
  label_toggle_button (clicks bs) =
    if show_labels (clicks bs) then "Labels: ON" else "Labels: OFF".
Proof. apply clicks_invariant. Qed.

(** X9.  Zooming in and then out, or out and then in, gives back the window
    as it was as long as the first step does not hit the cap; at the upper
    cap of 18 zooming in and out ends half a level lower, at the lower cap
    of 4 zooming out and in ends half a level higher. *)
Theorem zoom_round_trip ui :
  ((8 ≤ current_zoom ui < 36)%Z → zoom_out (zoom_in ui) = ui) ∧
  ((8 < current_zoom ui ≤ 36)%Z → zoom_in (zoom_out ui) = ui) ∧
  (current_zoom ui = 36%Z → current_zoom (zoom_out (zoom_in ui)) = 35%Z) ∧
  (current_zoom ui = 8%Z → current_zoom (zoom_in (zoom_out ui)) = 9%Z).
Proof.
  destruct ui as [sl txt z]. unfold zoom_in, zoom_out. cbn.
  repeat split; intros; try (f_equal; lia); lia.
Qed.

(** X10.  In any state the window can reach, clicking the label button
    twice gives back the state as it was, text of the button included. *)
Theorem label_toggle_twice bs :
  toggle_labels (toggle_labels (clicks bs)) = clicks bs.
Proof.
  destruct (clicks_invariant bs) as [_ Ht].
  destruct (clicks bs) as [sl txt z]. unfold toggle_labels. cbn in *.
  rewrite negb_involutive. subst txt. by destruct sl.
Qed.

Section Window.
Context `{Nums : PyNumbers} `{Builtins : !PyBuiltins} `{Order : !PyOrder}
  `{Ints : !PyInt} `{Maps : !Folium}.
Variable cfg : Config.
Variable settings : Settings.

Implicit Types (o : Observation) (obs : list Observation) (k : Key)
  (self : AdsbTracker) (inp : CycleInput) (ui : Ui).

(** ** The distance and altitude plots *)

Lemma zip_projections {A B C} (f : A → B) (g : A → C) (l : list A) :
  zip (f <$> l) (g <$> l) = (λ x, (f x, g x)) <$> l.
Proof. induction l as [|x l IH]; [done|]. cbn. by rewrite <- IH. Qed.

Lemma processed_observed clock acs o : ∀ i,
  o ∈ (processed cfg clock i acs).1 →
  ∃ now ac, observe cfg now ac = Next o.
Proof.
  induction acs as [|ac acs IH]; intros i; cbn [processed].
  - cbn. by intros ?%elem_of_nil.
  - destruct (observe cfg (clock i) ac) as [o'| |] eqn:Eo.
    + destruct (processed cfg clock (S i) acs) as [os ok] eqn:Ep.
      cbn. intros [->|Hin]%elem_of_cons; [by eauto|].
      apply (IH (S i)). by rewrite Ep.
    + apply IH.
    + cbn. by intros ?%elem_of_nil.
Qed.

Lemma accepted_list_observed inp o :
  o ∈ accepted_list cfg inp → ∃ now ac, observe cfg now ac = Next o.
Proof.
  unfold accepted_list, accepted. intros Ho.
  destruct inp.1 as [data|]; [|by apply elem_of_nil in Ho].
  destruct (aircraft_of data) as [acs| |];
    try (by apply elem_of_nil in Ho).
  destruct (processed cfg inp.2 0 acs) as [os ok] eqn:Ep.
  destruct ok; [|by apply elem_of_nil in Ho].
  apply (processed_observed inp.2 acs o 0). by rewrite Ep.
Qed.

Lemma accepted_observed inps o :
  o ∈ all_accepted cfg inps → ∃ now ac, observe cfg now ac = Next o.
Proof.
  unfold all_accepted. induction inps as [|inp inps IH]; cbn.
  - by intros ?%elem_of_nil.
  - intros [Ho|Ho]%elem_of_app; [by apply accepted_list_observed with inp|].
    by apply IH.
Qed.

(** X11.  After any number of cycles the distance plot is handed two lists
    of the same length whose entries pair the distance and the altitude of
    one accepted observation, the distance being that between the receiver
    and the position of that observation; the altitude histogram is handed
    the altitudes of all accepted observations.  Either plot is left empty
    exactly when no observation has been accepted so far. *)
Theorem distance_plot_pairs_observations inps :
  (update_scatter_dist_plot (run cfg inps) = None ↔ all_accepted cfg inps = []) ∧
  (update_hist_alt_plot (run cfg inps) = None ↔ all_accepted cfg inps = []) ∧
  (∀ xs ys, update_scatter_dist_plot (run cfg inps) = Some (xs, ys) →
     length xs = length ys ∧
     zip xs ys = (λ o, (o_dist o, o_alt o)) <$> all_accepted cfg inps) ∧
  (∀ alts, update_hist_alt_plot (run cfg inps) = Some alts →
     alts = o_alt <$> all_accepted cfg inps) ∧
  (∀ o, o ∈ all_accepted cfg inps →
     haversine (RECEIVER_LAT cfg, RECEIVER_LON cfg) (o_lat o, o_lon o)
       = Some (o_dist o)).
Proof.
  destruct (run_series cfg inps) as (Hd & Ha & _).
  unfold update_scatter_dist_plot, update_hist_alt_plot. rewrite Hd, Ha.
  split; [|split; [|split; [|split]]].
  - destruct (all_accepted cfg inps); split; done.
  - destruct (all_accepted cfg inps); split; done.
  - intros xs ys Hp.
    assert (xs = o_dist <$> all_accepted cfg inps ∧
            ys = o_alt <$> all_accepted cfg inps) as [-> ->].
    { destruct (all_accepted cfg inps); [done|]. by injection Hp as <- <-. }
    split; [by rewrite !length_fmap|apply zip_projections].
  - intros alts Hp. destruct (all_accepted cfg inps); [done|].
    by injection Hp as <-.
  - intros o (now & ac & Ho)%accepted_observed.
    apply observe_Next in Ho as (items & _ & _ & _ & _ & _ & Hh & _).
    exact Hh.
Qed.

(** ** The map *)

Lemma poly_line_Some (t t' : Track) : poly_line t = Some t' → t' = t.
Proof. unfold poly_line. destruct (validate_locations t); congruence. Qed.

Lemma mapM_poly_line (ts ts' : list Track) :
  mapM poly_line ts = Some ts' → ts' = ts.
Proof.
  intros H%mapM_Some_1. induction H as [|t t' ts ts' Ht _ IH]; [done|].
  apply poly_line_Some in Ht. congruence.
Qed.

Lemma draw_aircraft_Some ui self k e d :
  draw_aircraft cfg ui self k e = Some d →
  ∃ s, k = KStr s ∧
    drawn_popup d = {| popup_flight := e_flight e; popup_alt := e_alt e;
                       popup_hex := upper s |} ∧
    drawn_at d = (e_lat e, e_lon e) ∧
    drawn_line d =
      (if decide (KEEP_ALL_TRACKS cfg = 1%Z) then None
       else match aircraft_tracks self !! k with
            | Some track => if long_enough track then Some track else None
            | None => None
            end) ∧
    (show_labels ui = false ↔ drawn_label d = None) ∧
    validate_location (e_lat e, e_lon e) = true ∧
    (show_labels ui = true →
     int_of_num (e_alt e) ≠ IntOverflowError ∧ gs_str (e_gs e) ≠ None).
Proof.
  unfold draw_aircraft. destruct k as [| |s]; try done.
  cbn [key_upper mbind option_bind]. intros Hd. exists s. split; [done|].
  match type of Hd with
  | (?l ≫= _) = _ => destruct l as [line|] eqn:El; [|done]
  end.
  cbn [mbind option_bind] in Hd.
  assert (line =
    (if decide (KEEP_ALL_TRACKS cfg = 1%Z) then None
     else match aircraft_tracks self !! KStr s with
          | Some track => if long_enough track then Some track else None
          | None => None
          end)) as Hline.
  { case_decide; [congruence|].
    destruct (aircraft_tracks self !! KStr s) as [track|]; [|congruence].
    destruct (long_enough track); [|congruence].
    destruct (poly_line track) as [t'|] eqn:Et; [|done].
    apply poly_line_Some in Et as ->. cbn in El. congruence. }
  destruct (validate_location (e_lat e, e_lon e)); [|done].
  cbn [negb] in Hd. unfold alt_str in Hd. destruct (show_labels ui).
  - destruct (int_of_num (e_alt e)) eqn:Ea; try done;
      cbn [mbind option_bind] in Hd;
      (destruct (gs_str (e_gs e)) as [g|]; [|done]); cbn in Hd;
      injection Hd as <-; cbn; by repeat split.
  - cbn in Hd. injection Hd as <-. cbn. by repeat split.
Qed.

Lemma update_map_Some ui world_data airports self v :
  update_map cfg settings ui world_data airports self = Some v →
  Forall2 (λ kv d, draw_aircraft cfg ui self kv.1 kv.2 = Some d)
          (map_to_list (current_aircraft self)) (aircraft v) ∧
  ac_count v = size (current_aircraft self) ∧
  zoom_start v = current_zoom ui ∧
  persistent_lines v =
    (if decide (KEEP_ALL_TRACKS cfg = 1%Z)
     then filter (λ t, long_enough t = true)
                 ((map_to_list (aircraft_tracks self)).*2)
     else []).
Proof.
  unfold update_map.
  destruct (validate_location _); [|done]. cbn [negb].
  match goal with
  | |- (?a ≫= _) = _ → _ => destruct a as [as'|]; [|done]
  end.
  cbn [mbind option_bind].
  match goal with
  | |- (?l ≫= _) = _ → _ => destruct l as [ls|] eqn:El; [|done]
  end.
  cbn [mbind option_bind].
  destruct (mapM _ (map_to_list (current_aircraft self))) as [ds|] eqn:Em;
    [|done].
  cbn. intros [= <-]. cbn. split; [by apply mapM_Some_1|].
  split; [done|]. split; [done|].
  case_decide; [|congruence]. by apply mapM_poly_line in El.
Qed.

Lemma drawing_of_entry ui world_data airports self v k e :
  update_map cfg settings ui world_data airports self = Some v →
  current_aircraft self !! k = Some e →
  ∃ d, d ∈ aircraft v ∧ draw_aircraft cfg ui self k e = Some d.
Proof.
  intros [HF _]%update_map_Some He.
  apply elem_of_map_to_list in He.
  apply list_elem_of_lookup in He as [i Hi].
  destruct (Forall2_lookup_l _ _ _ _ _ HF Hi) as (d & Hd & Hdraw).
  exists d. split; [|done]. apply list_elem_of_lookup. by exists i.
Qed.

Lemma entry_of_drawing ui world_data airports self v d :
  update_map cfg settings ui world_data airports self = Some v →
  d ∈ aircraft v →
  ∃ k e, current_aircraft self !! k = Some e ∧
         draw_aircraft cfg ui self k e = Some d.
Proof.
  intros [HF _]%update_map_Some Hd.
  apply list_elem_of_lookup in Hd as [i Hi].
  destruct (Forall2_lookup_r _ _ _ _ _ HF Hi) as ([k e] & Hke & Hdraw).
  exists k, e. split; [|done].
  apply elem_of_map_to_list, list_elem_of_lookup. by exists i.
Qed.

Lemma update_map_non_text_key ui world_data airports self k e :
  current_aircraft self !! k = Some e → (∀ s, k ≠ KStr s) →
  update_map cfg settings ui world_data airports self = None.
Proof.
  intros He Hk.
  destruct (update_map cfg settings ui world_data airports self) as [v|] eqn:Ev;
    [|done].
  destruct (drawing_of_entry _ _ _ _ _ _ _ Ev He) as (d & _ & Hd).
  apply draw_aircraft_Some in Hd as (s & -> & _). by destruct (Hk s).
Qed.

(** X12.  When [update_map] goes through, the count it shows is the size of
    the table, the zoom is the current zoom, and the map has one circle per
    entry of the table, at the position the entry holds, with the flight
    text of the entry and its key in upper case in the popup; every circle
    comes from an entry. *)
Theorem map_shows_every_aircraft ui world_data airports self v :
  update_map cfg settings ui world_data airports self = Some v →
  ac_count v = size (current_aircraft self) ∧
  length (aircraft v) = ac_count v ∧
  zoom_start v = current_zoom ui ∧
  (∀ k e, current_aircraft self !! k = Some e →
     ∃ d s, d ∈ aircraft v ∧ k = KStr s ∧
       drawn_at d = (e_lat e, e_lon e) ∧
       drawn_popup d = {| popup_flight := e_flight e; popup_alt := e_alt e;
                          popup_hex := upper s |}) ∧
  (∀ d, d ∈ aircraft v →
     ∃ k e, current_aircraft self !! k = Some e ∧
            drawn_at d = (e_lat e, e_lon e)).
Proof.
  intros Hv. pose proof (update_map_Some _ _ _ _ _ Hv) as (HF & Hc & Hz & _).
  split; [done|]. split.
  { rewrite Hc, <- (Forall2_length _ _ _ HF). apply length_map_to_list. }
  split; [done|]. split.
  - intros k e He.
    destruct (drawing_of_entry _ _ _ _ _ _ _ Hv He) as (d & Hin & Hd).
    apply draw_aircraft_Some in Hd as (s & -> & Hp & Hat & _).
    by exists d, s.
  - intros d Hin.
    destruct (entry_of_drawing _ _ _ _ _ _ Hv Hin) as (k & e & He & Hd).
    apply draw_aircraft_Some in Hd as (s & _ & _ & Hat & _).
    by exists k, e.
Qed.

(** X13.  An entry of the table that [update_map] cannot draw makes it
    raise: an entry whose key is not a text ([None] or a number has no
    [upper]), an entry whose location folium rejects, and, with labels on,
    an entry whose altitude or groundspeed makes [int] raise an
    [OverflowError], which the handlers around the label do not catch. *)
Theorem map_needs_text_keys ui world_data airports self k e :
  current_aircraft self !! k = Some e →
  (∀ s, k ≠ KStr s) ∨
  validate_location (e_lat e, e_lon e) = false ∨
  (show_labels ui = true ∧
   (int_of_num (e_alt e) = IntOverflowError ∨
    ∃ x, py_float (e_gs e) = FloatOk x ∧ int_of_num x = IntOverflowError)) →
  update_map cfg settings ui world_data airports self = None.
Proof.
  intros He Hbad.
  destruct (update_map cfg settings ui world_data airports self) as [v|] eqn:Ev;
    [|done].
  destruct (drawing_of_entry _ _ _ _ _ _ _ Ev He) as (d & _ & Hd).
  apply draw_aircraft_Some in Hd as (s & -> & _ & _ & _ & _ & Hloc & Hlab).
  destruct Hbad as [Hk|[Hl|[Hon [Ha|(x & Hx & Hi)]]]].
  - by destruct (Hk s).
  - congruence.
  - by destruct (Hlab Hon) as [? _].
  - destruct (Hlab Hon) as [_ Hg]. destruct Hg.
    unfold gs_str. rewrite Hx, Hi. by destruct (e_gs e).
Qed.

(** X14.  A record whose [hex] field is a null, a boolean or a number can
    be accepted by the cycle; the cycle succeeds, and the [update_map] that
    follows raises. *)
Theorem non_text_identity_breaks_map ui world_data airports self inp
    now items v o :
  cycle_ok cfg self inp = true →
  o ∈ accepted_list cfg inp →
  observe cfg now (JObj items) = Next o →
  assoc "hex" items = Some v →
  (v = JNull ∨ (∃ b, v = JBool b) ∨ ∃ x, v = JNum x) →
  update_map cfg settings ui world_data airports (cycle cfg self inp) = None.
Proof.
  intros Hok Hin Ho Hhex Hv.
  apply observe_Next in Ho as (items' & [= <-] & _ & _ & _ & _ & _ & Hk & _).
  rewrite Hhex in Hk. cbn [default from_option id] in Hk.
  destruct (cycle_table cfg self inp Hok) as [_ Hdom].
  assert (o_hex o ∈ dom (current_aircraft (cycle cfg self inp))) as Hd.
  { rewrite Hdom. apply elem_of_list_to_set, list_elem_of_fmap. by exists o. }
  apply elem_of_dom in Hd as [e He].
  apply update_map_non_text_key with (o_hex o) e; [done|].
  intros s Hs. rewrite Hs in Hk.
  destruct Hv as [->|[[b ->]|[x ->]]]; cbn in Hk; congruence.
Qed.

(** X15.  Which track lines the map has.  When [KEEP_ALL_TRACKS] is 1: one
    line for every stored track of two points or more, whether its aircraft
    is in the table or not.  When it is 0 and the cycle before the drawing
    succeeded: every stored track of two points or more is the line of an
    aircraft on the map, and, with a maximum of track points that is not
    negative, the circle of that aircraft sits on the last point of the
    line. *)
Theorem track_lines_drawn ui world_data airports :
  (KEEP_ALL_TRACKS cfg = 1%Z →
   ∀ self v, update_map cfg settings ui world_data airports self = Some v →
     (∀ t, t ∈ persistent_lines v ↔
        (∃ k, aircraft_tracks self !! k = Some t) ∧ (2 ≤ length t)%nat) ∧
     (∀ d, d ∈ aircraft v → drawn_line d = None)) ∧
  (KEEP_ALL_TRACKS cfg = 0%Z →
   ∀ self inp v, cycle_ok cfg self inp = true →
     update_map cfg settings ui world_data airports (cycle cfg self inp) = Some v →
     persistent_lines v = [] ∧
     ∀ k t, aircraft_tracks (cycle cfg self inp) !! k = Some t →
       (2 ≤ length t)%nat →
       ∃ d, d ∈ aircraft v ∧ drawn_line d = Some t ∧
            ((0 ≤ MAX_TRACK_POINTS cfg)%Z → last t = Some (drawn_at d))).
Proof.
  split.
  - intros Hk self v Hv.
    pose proof (update_map_Some _ _ _ _ _ Hv) as (_ & _ & _ & Hlines).
    rewrite decide_True in Hlines by done. split.
    + intros t. rewrite Hlines, list_elem_of_filter, list_elem_of_fmap.
      unfold long_enough. rewrite Nat.leb_le. split.
      * intros [Hlen ([k t'] & -> & Hin)]. split; [|done].
        exists k. by apply elem_of_map_to_list.
      * intros [[k Hkt] Hlen]. split; [done|].
        exists (k, t). split; [done|]. by apply elem_of_map_to_list.
    + intros d Hin.
      destruct (entry_of_drawing _ _ _ _ _ _ Hv Hin) as (k & e & _ & Hd).
      apply draw_aircraft_Some in Hd as (s & _ & _ & _ & Hline & _).
      by rewrite decide_True in Hline.
  - intros Hk self inp v Hok Hv.
    pose proof (update_map_Some _ _ _ _ _ Hv) as (_ & _ & _ & Hlines).
    rewrite decide_False in Hlines by lia. split; [done|].
    intros k t Ht Hlen.
    assert (k ∈ dom (current_aircraft (cycle cfg self inp))) as Hd.
    { rewrite <- (cycle_same_keys cfg self inp Hok Hk).
      apply elem_of_dom. by eexists. }
    apply elem_of_dom in Hd as [e He].
    destruct (drawing_of_entry _ _ _ _ _ _ _ Hv He) as (d & Hin & Hd).
    apply draw_aircraft_Some in Hd as (s & -> & _ & Hat & Hline & _).
    exists d. split; [done|].
    rewrite decide_False, Ht in Hline by lia.
    unfold long_enough in Hline.
    rewrite (proj2 (Nat.leb_le 2 (length t)) Hlen) in Hline.
    split; [done|]. intros HN.
    destruct (cycle_track_ends_at_entry cfg self inp _ _ Hok HN He)
      as (t' & Ht' & Hlast).
    rewrite Ht in Ht'. injection Ht' as <-. by rewrite Hat.
Qed.

(** X16.  For an accepted record, and given that [float] rejects the text
    [N/A], the speed in the label of the map is [N/A] exactly when the
    groundspeed of the observation is the unknown marker, and otherwise the
    whole part of that same groundspeed. *)
Theorem label_shows_known_speed now ac o :
  float_of_str "N/A" = None →
  observe cfg now ac = Next o →
  gs_str (e_gs (o_entry o)) =
    match o_gs o with
    | None => Some None
    | Some x =>
        match int_of_num x with
        | IntOk n => Some (Some n)
        | IntValueError => Some None
        | IntOverflowError => None
        end
    end.
Proof.
  intros Hna (items & -> & _ & _ & _ & _ & _ & _ & Hraw & Hgs)%observe_Next.
  cbn [o_entry e_gs]. rewrite Hraw. cbn [gs_field] in Hgs.
  destruct (assoc "gs" items) as [v|]; cbn [default from_option id] in *.
  2:{ cbn in Hgs. rewrite Hgs. cbn. by rewrite Hna. }
  destruct (is_None v) eqn:En.
  { apply is_None_true in En as ->. cbn in Hgs. by rewrite Hgs. }
  destruct (eq_str v "N/A") eqn:Es.
  { apply eq_str_true in Es as ->. cbn in Hgs. rewrite Hgs.
    cbn. by rewrite Hna. }
  cbn [negb andb] in Hgs. unfold gs_str.
  destruct (o_gs o) as [x|]; rewrite Hgs.
  - by destruct v.
  - destruct v; try done; cbn in Hgs;
      match type of Hgs with
      | from_option _ _ ?t = _ => destruct t; cbn in Hgs; done
      end.
Qed.


(** ** What the method returns *)

(** C8, as the code has it.  A successful cycle returns the flag [True] and
    nothing else, whatever the number of observations.  [update_data] then
    redraws the map and, unless [update_map] raises, the four plots; it
    returns no value.  The number of observations accepted in the cycle is
    the number of entries the cycle appends to each of the three series. *)
Theorem success_returns_flag_only ui world_data airports self inp obs :
  accepted cfg inp = Some obs →
  ∃ self',
    fetch_aircraft_data cfg inp.1 inp.2 self = (self', true) ∧
    update_data cfg settings ui world_data airports inp.1 inp.2 self =
      (self',
       match update_map cfg settings ui world_data airports self' with
       | None => MapRaised
       | Some m =>
           Redrawn m (update_scatter_dist_plot self') (update_hist_alt_plot self')
                     (update_scatter_gs_plot self') (update_hist_gs_plot self')
       end) ∧
    length (all_distances self') = length (all_distances self) + length obs ∧
    length (all_altitudes self') = length (all_altitudes self) + length obs ∧
    length (all_groundspeeds self') = length (all_groundspeeds self) + length obs.
Proof.
  intros Ea. unfold update_data.
  rewrite (fetch_accepted _ _ _ _ Ea). eexists. split; [reflexivity|].
  split; [by destruct (update_map _ _ _ _ _ _)|].
  cbn. by rewrite !length_app, !length_fmap.
Qed.


(** ** The airports *)

Lemma airport_of_row_Keep row code lat lon status :
  airport_of_row cfg settings row = RowKeep code (lat, lon, status) →
  code ≠ "" ∧
  (∃ t, column "latitude_deg" row = Some (Some t) ∧ float_of_str t = Some lat) ∧
  (∃ t, column "longitude_deg" row = Some (Some t) ∧ float_of_str t = Some lon) ∧
  (∃ d, haversine (RECEIVER_LAT cfg, RECEIVER_LON cfg) (JNum lat, JNum lon)
          = Some d ∧
        num_le d (AIRPORT_DISTANCE settings) = true) ∧
  status =
    (if bool_decide (default (Some "") (column "type" row) = Some "large_airport")
        || bool_decide (default (Some "") (column "type" row) = Some "medium_airport")
     then "towered" else "untowered") ∧
  Some code = text_or (default None (column "icao_code" row))
                      (default (Some "") (column "ident" row)).
Proof.
  unfold airport_of_row.
  destruct (column "latitude_deg" row) as [[tlat|]|]; try done.
  cbn [mbind option_bind].
  destruct (float_of_str tlat) as [lat'|] eqn:Elat; [|done].
  destruct (column "longitude_deg" row) as [[tlon|]|]; try done.
  cbn [mbind option_bind].
  destruct (float_of_str tlon) as [lon'|] eqn:Elon; [|done].
  destruct (haversine _ _) as [d|] eqn:Ed; [|done].
  destruct (num_le d (AIRPORT_DISTANCE settings)) eqn:Ele; [|done].
  destruct (text_or _ _) as [[|c s]|] eqn:Ec; try done.
  intros [= <- <- <- <-].
  split; [done|]. split; [by exists tlat|]. split; [by exists tlon|].
  split; [by exists d|]. done.
Qed.

Lemma load_airports_elem rows : ∀ acc code (a : num * num * string),
  load_airports cfg settings rows acc !! code = Some a →
  acc !! code = Some a ∨
  ∃ row, row ∈ rows ∧ airport_of_row cfg settings row = RowKeep code a.
Proof.
  induction rows as [|row rows IH]; intros acc code a; cbn [load_airports].
  - by left.
  - destruct (airport_of_row cfg settings row) as [c a'| |] eqn:Er.
    + intros [Hacc|(r & Hin & Hr)]%IH.
      * destruct (decide (c = code)) as [->|Hne].
        -- rewrite lookup_insert_eq in Hacc. injection Hacc as ->.
           right. exists row. split; [apply list_elem_of_here|done].
        -- rewrite lookup_insert_ne in Hacc by done. by left.
      * right. exists r. split; [by apply list_elem_of_further|done].
    + intros [Hacc|(r & Hin & Hr)]%IH; [by left|].
      right. exists r. split; [by apply list_elem_of_further|done].
    + by left.
Qed.

(** X17.  Every airport the loader returns comes from a row of the file
    whose latitude and longitude texts are numbers and whose distance from
    the receiver is at most [AIRPORT_DISTANCE]; its code is not empty and is
    the ICAO code of the row when that is not empty and the identifier
    otherwise; it is towered exactly when the type of the row is a large or
    a medium airport.  Nothing is returned when [PLOT_AIRPORTS] is 0 or
    when there is no file and the download fails. *)
Theorem loaded_airports_are_near have_file download_ok reader code lat lon status :
  getAirportLocations cfg settings have_file download_ok reader !! code
    = Some (lat, lon, status) →
  PLOT_AIRPORTS settings ≠ 0%Z ∧
  (have_file = true ∨ download_ok = true) ∧
  ∃ rows row, reader = Some rows ∧ row ∈ rows ∧
    code ≠ "" ∧
    (∃ t, column "latitude_deg" row = Some (Some t) ∧ float_of_str t = Some lat) ∧
    (∃ t, column "longitude_deg" row = Some (Some t) ∧ float_of_str t = Some lon) ∧
    (∃ d, haversine (RECEIVER_LAT cfg, RECEIVER_LON cfg) (JNum lat, JNum lon)
            = Some d ∧
          num_le d (AIRPORT_DISTANCE settings) = true) ∧
    status =
      (if bool_decide (default (Some "") (column "type" row) = Some "large_airport")
          || bool_decide (default (Some "") (column "type" row) = Some "medium_airport")
       then "towered" else "untowered") ∧
    Some code = text_or (default None (column "icao_code" row))
                        (default (Some "") (column "ident" row)).
Proof.
  unfold getAirportLocations. case_decide as Hp; [by rewrite lookup_empty|].
  destruct (negb have_file && negb download_ok) eqn:Ef;
    [by rewrite lookup_empty|].
  destruct reader as [rows|]; [|by rewrite lookup_empty].
  intros [Hacc|(row & Hin & Hrow)]%load_airports_elem;
    [by rewrite lookup_empty in Hacc|].
  split; [done|]. split.
  { destruct have_file; [by left|]. destruct download_ok; [by right|done]. }
  exists rows, row. split; [done|]. split; [done|].
  by apply airport_of_row_Keep.
Qed.

Lemma load_airports_skip row rows1 : ∀ rows2 acc,
  airport_of_row cfg settings row = RowSkip →
  load_airports cfg settings (rows1 ++ row :: rows2) acc =
    load_airports cfg settings (rows1 ++ rows2) acc.
Proof.
  induction rows1 as [|r rows1 IH]; intros rows2 acc Hs; cbn [app load_airports].
  - by rewrite Hs.
  - destruct (airport_of_row cfg settings r); [by apply IH..|done].
Qed.

(** X18.  A row whose latitude or longitude is missing or is not the text
    of a number, whose distance cannot be computed or is beyond
    [AIRPORT_DISTANCE], or which has no code, is skipped: the loader
    returns what it would return for the file without that row. *)
Theorem unreadable_row_is_skipped have_file download_ok row rows1 rows2 :
  (∃ t, column "latitude_deg" row = Some t ∧ t ≫= float_of_str = None) ∨
  airport_of_row cfg settings row = RowSkip →
  getAirportLocations cfg settings have_file download_ok
      (Some (rows1 ++ row :: rows2)) =
    getAirportLocations cfg settings have_file download_ok
      (Some (rows1 ++ rows2)).
Proof.
  intros H.
  assert (airport_of_row cfg settings row = RowSkip) as Hs.
  { destruct H as [(t & Hc & Hf)|H]; [|done].
    unfold airport_of_row. by rewrite Hc, Hf. }
  unfold getAirportLocations. case_decide; [done|].
  destruct (negb have_file && negb download_ok); [done|].
  by apply load_airports_skip.
Qed.

Lemma load_airports_error row rows1 : ∀ rows2 acc,
  airport_of_row cfg settings row = RowError →
  load_airports cfg settings (rows1 ++ row :: rows2) acc =
    load_airports cfg settings rows1 acc.
Proof.
  induction rows1 as [|r rows1 IH]; intros rows2 acc He; cbn [app load_airports].
  - by rewrite He.
  - destruct (airport_of_row cfg settings r); [by apply IH..|done].
Qed.

(** X19.  A row that lacks the latitude column altogether ends the loading:
    the loader returns what the rows before it gave, whatever comes after.
    When it is the first row nothing is loaded. *)
Theorem missing_column_ends_loading have_file download_ok row rows1 rows2 :
  column "latitude_deg" row = None →
  getAirportLocations cfg settings have_file download_ok
      (Some (rows1 ++ row :: rows2)) =
    getAirportLocations cfg settings have_file download_ok (Some rows1) ∧
  getAirportLocations cfg settings have_file download_ok (Some (row :: rows2))
    = ∅.
Proof.
  intros Hc.
  assert (airport_of_row cfg settings row = RowError) as He
    by (unfold airport_of_row; by rewrite Hc).
  unfold getAirportLocations. case_decide; [done|].
  destruct (negb have_file && negb download_ok); [done|]. split.
  - by apply load_airports_error.
  - cbn [load_airports]. by rewrite He.
Qed.

Lemma load_airports_other rows code : ∀ acc,
  (∀ r a, r ∈ rows → airport_of_row cfg settings r ≠ RowKeep code a) →
  load_airports cfg settings rows acc !! code = acc !! code.
Proof.
  induction rows as [|r rows IH]; intros acc Hno; cbn [load_airports]; [done|].
  destruct (airport_of_row cfg settings r) as [c a| |] eqn:Er; [| |done].
  - rewrite IH.
    + apply lookup_insert_ne. intros ->.
      by apply (Hno r a); [apply list_elem_of_here|].
    + intros r' a' Hin. apply Hno. by apply list_elem_of_further.
  - apply IH. intros r' a' Hin. apply Hno. by apply list_elem_of_further.
Qed.

Lemma load_airports_app rows1 : ∀ rows2 acc,
  (∀ r, r ∈ rows1 → airport_of_row cfg settings r ≠ RowError) →
  load_airports cfg settings (rows1 ++ rows2) acc =
    load_airports cfg settings rows2 (load_airports cfg settings rows1 acc).
Proof.
  induction rows1 as [|r rows1 IH]; intros rows2 acc Hok; [done|].
  cbn [app load_airports].
  destruct (airport_of_row cfg settings r) eqn:Er.
  - apply IH. intros r' Hin. apply Hok. by apply list_elem_of_further.
  - apply IH. intros r' Hin. apply Hok. by apply list_elem_of_further.
  - by destruct (Hok r); [apply list_elem_of_here|].
Qed.

(** X20.  When several rows give the same code, the last of them is the
    airport the loader returns for that code (no row before it ending the
    loading). *)
Theorem last_row_of_a_code_wins have_file download_ok rows1 row rows2
    code airport :
  PLOT_AIRPORTS settings ≠ 0%Z → have_file = true ∨ download_ok = true →
  (∀ r, r ∈ rows1 → airport_of_row cfg settings r ≠ RowError) →
  airport_of_row cfg settings row = RowKeep code airport →
  (∀ r a, r ∈ rows2 → airport_of_row cfg settings r ≠ RowKeep code a) →
  getAirportLocations cfg settings have_file download_ok
      (Some (rows1 ++ row :: rows2)) !! code = Some airport.
Proof.
  intros Hp Hf Hok Hrow Hno. unfold getAirportLocations.
  rewrite decide_False by done.
  assert (negb have_file && negb download_ok = false) as ->
    by (destruct Hf as [-> | ->]; by rewrite ?andb_false_r).
  rewrite load_airports_app by done. cbn [load_airports]. rewrite Hrow.
  rewrite load_airports_other by done. apply lookup_insert_eq.
Qed.


(** ** The world borders *)

Lemma filter_features_sublist features : ∀ kept,
  filter_features cfg settings features = Some kept →
  kept `sublist_of` features.
Proof.
  induction features as [|f fs IH]; intros kept; cbn [filter_features].
  - intros [= <-]. constructor.
  - destruct (dict_get f "geometry" (JObj []) ≫= sampled_points) as [coords| |];
      [| |done].
    + destruct (within_range cfg settings coords) as [near|]; [|done].
      cbn [mbind option_bind].
      destruct (filter_features cfg settings fs) as [filtered|]; [|done].
      cbn [mbind option_bind]. intros [= <-].
      destruct near; [apply sublist_skip|apply sublist_cons]; by apply IH.
    + intros Hk. apply sublist_cons. by apply IH.
Qed.

Lemma within_range_true coords :
  within_range cfg settings coords = Some true →
  ∃ coord c1 c0 d, coord ∈ coords ∧
    py_index coord 1 = Some c1 ∧ py_index coord 0 = Some c0 ∧
    haversine (RECEIVER_LAT cfg, RECEIVER_LON cfg) (c1, c0) = Some d ∧
    num_le d (WORLD_BORDER_DISTANCE settings) = true.
Proof.
  induction coords as [|coord rest IH]; cbn [within_range]; [done|].
  assert (within_range cfg settings rest = Some true →
    ∃ coord' c1 c0 d, coord' ∈ coord :: rest ∧
      py_index coord' 1 = Some c1 ∧ py_index coord' 0 = Some c0 ∧
      haversine (RECEIVER_LAT cfg, RECEIVER_LON cfg) (c1, c0) = Some d ∧
      num_le d (WORLD_BORDER_DISTANCE settings) = true) as Hrest.
  { intros (c & c1 & c0 & d & Hin & H)%IH.
    exists c, c1, c0, d. split; [by apply list_elem_of_further|done]. }
  destruct (py_len coord) as [n|]; [|done]. cbn [mbind option_bind].
  destruct (Nat.leb 2 n); [|done].
  destruct (py_index coord 1) as [c1|] eqn:E1; [|done].
  cbn [mbind option_bind].
  destruct (py_index coord 0) as [c0|] eqn:E0; [|done].
  cbn [mbind option_bind].
  destruct (haversine _ _) as [d|] eqn:Ed; [|done].
  destruct (num_le d (WORLD_BORDER_DISTANCE settings)) eqn:Ele; [|done].
  intros _. exists coord, c1, c0, d.
  split; [apply list_elem_of_here|done].
Qed.

Lemma filter_features_elem features : ∀ kept f,
  filter_features cfg settings features = Some kept → f ∈ kept →
  ∃ coords, dict_get f "geometry" (JObj []) ≫= sampled_points = Next coords ∧
            within_range cfg settings coords = Some true.
Proof.
  induction features as [|f' fs IH]; intros kept f; cbn [filter_features].
  - intros [= <-]. by intros ?%elem_of_nil.
  - destruct (dict_get f' "geometry" (JObj []) ≫= sampled_points)
      as [coords| |] eqn:Es; [| |done].
    + destruct (within_range cfg settings coords) as [near|] eqn:Ew; [|done].
      cbn [mbind option_bind].
      destruct (filter_features cfg settings fs) as [filtered|]; [|done].
      cbn [mbind option_bind]. intros [= <-].
      destruct near; [|by apply (IH filtered)].
      intros [->|Hin]%elem_of_cons;
        [by exists coords|by apply (IH filtered)].
    + apply IH.
Qed.

Lemma getWorldBorders_Some have_file download_ok data kept :
  getWorldBorders cfg settings have_file download_ok data = Some kept →
  (have_file = true ∨ download_ok = true) ∧
  ∃ d features, data = Some d ∧
    dict_get d "features" (JArr []) ≫= py_iter = Next features ∧
    filter_features cfg settings features = Some kept.
Proof.
  unfold getWorldBorders.
  destruct (negb have_file && negb download_ok) eqn:Ef; [done|].
  destruct data as [d|]; [|done].
  destruct (dict_get d "features" (JArr []) ≫= py_iter) as [features| |] eqn:Ei;
    try done.
  intros Hk. split.
  { destruct have_file; [by left|]. destruct download_ok; [by right|done]. }
  by exists d, features.
Qed.

(** X21.  The features the loader returns are features of the file, in the
    order of the file: nothing is added, changed or moved. *)
Theorem borders_are_a_sublist have_file download_ok items features kept :
  assoc "features" items = Some (JArr features) →
  getWorldBorders cfg settings have_file download_ok (Some (JObj items))
    = Some kept →
  kept `sublist_of` features.
Proof.
  intros Hf (_ & d & fs & [= <-] & Hi & Hk)%getWorldBorders_Some.
  cbn [dict_get mbind step_bind] in Hi. rewrite Hf in Hi.
  cbn in Hi. injection Hi as <-. by apply filter_features_sublist.
Qed.

(** X22.  Every feature the loader returns is a polygon or a multi-polygon
    that has, among the points sampled from it, one whose distance from the
    receiver is at most [WORLD_BORDER_DISTANCE]; the point is read as
    longitude first, latitude second. *)
Theorem kept_border_has_near_point have_file download_ok data kept f :
  getWorldBorders cfg settings have_file download_ok data = Some kept →
  f ∈ kept →
  ∃ geometry type coords coord c1 c0 d,
    dict_get f "geometry" (JObj []) = Next geometry ∧
    dict_get geometry "type" JNull = Next type ∧
    (eq_str type "Polygon" = true ∨ eq_str type "MultiPolygon" = true) ∧
    sampled_points geometry = Next coords ∧
    (length coords ≤ 500)%nat ∧
    coord ∈ coords ∧
    py_index coord 1 = Some c1 ∧ py_index coord 0 = Some c0 ∧
    haversine (RECEIVER_LAT cfg, RECEIVER_LON cfg) (c1, c0) = Some d ∧
    num_le d (WORLD_BORDER_DISTANCE settings) = true.
Proof.
  intros (_ & dt & fs & _ & _ & Hk)%getWorldBorders_Some Hin.
  destruct (filter_features_elem _ _ _ Hk Hin) as (coords & Hs & Hw).
  destruct (dict_get f "geometry" (JObj [])) as [geometry| |] eqn:Eg;
    try done.
  cbn [mbind step_bind] in Hs.
  apply within_range_true in Hw as (coord & c1 & c0 & d & Hc & H1 & H0 & Hd & Hle).
  assert (∃ type, dict_get geometry "type" JNull = Next type ∧
            (eq_str type "Polygon" = true ∨ eq_str type "MultiPolygon" = true) ∧
            (length coords ≤ 500)%nat) as (type & Ht & Hty & Hlen).
  { unfold sampled_points in Hs.
    destruct (dict_get geometry "type" JNull) as [type| |]; try done.
    exists type. split; [done|]. cbn [mbind step_bind] in Hs.
    destruct (eq_str type "Polygon") eqn:Ep.
    - split; [by left|].
      destruct (dict_get geometry "coordinates" _) as [cs| |]; try done.
      cbn [mbind step_bind] in Hs.
      destruct (py_index cs 0) as [ring|]; [|done].
      cbn [or_raise mbind step_bind] in Hs.
      destruct ring; try done; cbn in Hs; injection Hs as <-;
        rewrite ?length_fmap, length_take; lia.
    - destruct (eq_str type "MultiPolygon") eqn:Em; [|done].
      split; [by right|].
      destruct (dict_get geometry "coordinates" _) as [cs| |]; try done.
      cbn [mbind step_bind] in Hs.
      destruct (py_iter cs) as [ps| |]; try done.
      cbn [mbind step_bind] in Hs.
      destruct (outer_rings ps []) as [cs'| |]; try done.
      cbn [mbind step_bind] in Hs. injection Hs as <-.
      rewrite length_take. lia. }
  by exists geometry, type, coords, coord, c1, c0, d.
Qed.

(** X23.  For a polygon only the first 500 points of its first ring decide:
    the feature is kept exactly when one of them is near enough, whatever
    the later points and the other rings are. *)
Theorem polygon_sampling_stops_at_500 fitems gitems ring rings features :
  assoc "geometry" fitems = Some (JObj gitems) →
  assoc "type" gitems = Some (JStr "Polygon") →
  assoc "coordinates" gitems = Some (JArr (JArr ring :: rings)) →
  filter_features cfg settings (JObj fitems :: features) =
    near ← within_range cfg settings (take 500 ring);
    filtered ← filter_features cfg settings features;
    Some (if near : bool then JObj fitems :: filtered else filtered).
Proof.
  intros Hg Ht Hc. cbn [filter_features dict_get mbind step_bind].
  rewrite Hg. cbn [default from_option id]. unfold sampled_points.
  cbn [dict_get mbind step_bind]. rewrite Ht, Hc. reflexivity.
Qed.

Lemma filter_features_broken f features1 : ∀ features2,
  dict_get f "geometry" (JObj []) ≫= sampled_points = Raise →
  filter_features cfg settings (features1 ++ f :: features2) = None.
Proof.
  induction features1 as [|f' fs IH]; intros features2 Hf;
    cbn [app filter_features].
  - destruct (dict_get f "geometry" (JObj []) ≫= sampled_points) eqn:E;
      [congruence..|done].
  - rewrite IH by done.
    destruct (dict_get f' "geometry" (JObj []) ≫= sampled_points); try done.
    by destruct (within_range cfg settings _).
Qed.

(** X24.  One feature that is not a dict, whose geometry is null, or that
    is a polygon with an empty list of rings, and the loader returns
    nothing at all, wherever the feature stands in the file. *)
Theorem broken_feature_loses_all_borders have_file download_ok items
    features1 f features2 :
  assoc "features" items = Some (JArr (features1 ++ f :: features2)) →
  ((∀ fitems, f ≠ JObj fitems) ∨
   (∃ fitems, f = JObj fitems ∧ assoc "geometry" fitems = Some JNull) ∨
   (∃ fitems gitems, f = JObj fitems ∧
      assoc "geometry" fitems = Some (JObj gitems) ∧
      assoc "type" gitems = Some (JStr "Polygon") ∧
      assoc "coordinates" gitems = Some (JArr []))) →
  getWorldBorders cfg settings have_file download_ok (Some (JObj items)) = None.
Proof.
  intros Hfs Hf. unfold getWorldBorders.
  destruct (negb have_file && negb download_ok); [done|].
  cbn [dict_get mbind step_bind]. rewrite Hfs. cbn [default from_option id py_iter].
  apply filter_features_broken.
  destruct Hf as [Hnd|[(fitems & -> & Hg)|(fitems & gitems & -> & Hg & Ht & Hc)]].
  - destruct f as [| | | | |fitems]; try done. by destruct (Hnd fitems).
  - cbn [dict_get mbind step_bind]. by rewrite Hg.
  - cbn [dict_get mbind step_bind]. rewrite Hg. cbn [default from_option id].
    unfold sampled_points. cbn [dict_get mbind step_bind].
    by rewrite Ht, Hc.
Qed.


End Window.


(** * The properties on concrete runs *)

Import Sample.

(** ** A cycle that fails part-way *)

(** C1.  A cycle whose second record raises returns [False], yet the
    position of its first record stays in the track store: the track of
    [a1] has gained a point.  The table and the three series are as
    before. *)
Theorem failed_cycle_keeps_track_writes :
  let before := after_a1 default_config in
  let inp := reply [plane "a1" 5 6 300; bad_altitude "b2"] in
  let after := cycle default_config before inp in
  cycle_ok default_config before inp = false ∧
  aircraft_tracks before !! KStr "a1" = Some [(JNum 1%Z, JNum 2%Z)] ∧
  aircraft_tracks after !! KStr "a1" =
    Some [(JNum 1%Z, JNum 2%Z); (JNum 5%Z, JNum 6%Z)] ∧
  aircraft_tracks after ≠ aircraft_tracks before ∧
  current_aircraft after = current_aircraft before ∧
  all_distances after = all_distances before ∧
  all_altitudes after = all_altitudes before ∧
  all_groundspeeds after = all_groundspeeds before.
Proof.
  cbv zeta.
  assert (aircraft_tracks (after_a1 default_config) !! KStr "a1"
          = Some [(JNum 1%Z, JNum 2%Z)]) as Hb by (vm_compute; reflexivity).
  assert (aircraft_tracks
            (cycle default_config (after_a1 default_config)
               (reply [plane "a1" 5 6 300; bad_altitude "b2"])) !! KStr "a1"
          = Some [(JNum 1%Z, JNum 2%Z); (JNum 5%Z, JNum 6%Z)]) as Ha
    by (vm_compute; reflexivity).
  split; [vm_compute; reflexivity|]. split; [exact Hb|]. split; [exact Ha|].
  split; [intros Heq; rewrite Heq, Hb in Ha; discriminate|].
  repeat split; vm_compute; reflexivity.
Qed.

(** C2.  A record whose altitude or groundspeed is a JSON array, or whose
    latitude is a string, makes the loop body raise; the cycle then returns
    [False] and the records after it are not processed. *)
Theorem malformed_record_aborts_cycle :
  loop_body default_config (stuck_clock 0) (bad_altitude "b2") (fresh_locals, ∅)
    = Raise ∧
  loop_body default_config (stuck_clock 0) (bad_groundspeed "b2") (fresh_locals, ∅)
    = Raise ∧
  loop_body default_config (stuck_clock 0) (bad_latitude "b2") (fresh_locals, ∅)
    = Raise ∧
  fetch_aircraft_data default_config
      (Some (snapshot [bad_altitude "b2"; plane "a1" 1 2 300])) stuck_clock init
    = (init, false).
Proof. repeat split; vm_compute; reflexivity. Qed.

(** ** Tracks *)


Lemma track_bounded_fifo_witness :
  (1 ≤ MAX_TRACK_POINTS default_config)%Z ∧
  aircraft_tracks (run default_config (xyz_cycle <$> eleven)) !! KStr "XYZ" =
    Some ((λ i, (JNum i, JNum i)) <$> [2; 3; 4; 5; 6; 7; 8; 9; 10; 11]%Z).
Proof.
  assert (1 ≤ MAX_TRACK_POINTS default_config)%Z as HN by (vm_compute; discriminate).
  split; [exact HN|].
  destruct (track_bounded_fifo default_config HN) as (_ & _ & _ & Hrun).
  rewrite (Hrun (KStr "XYZ") (xyz_cycle <$> eleven) (xyz_observation <$> eleven)).
  - reflexivity.
  - discriminate.
  - apply Forall2_fmap, Forall_Forall2_diag.
    repeat constructor.
Defined.

Lemma retention_policy_witness :
  (KEEP_ALL_TRACKS default_config = 0%Z ∧
   aircraft_tracks (cycle default_config (after_a1 default_config)
                      (reply [plane "b2" 3 4 500])) !! KStr "a1" = None) ∧
  (KEEP_ALL_TRACKS keep_all_config = 1%Z ∧
   is_Some (aircraft_tracks
              (foldl (cycle keep_all_config) (after_a1 keep_all_config)
                 [reply [plane "b2" 3 4 500]; (None, stuck_clock);
                  reply [bad_altitude "c3"]; reply []])
            !! KStr "a1")).
Proof.
  split.
  - split; [reflexivity|].
    apply (proj1 (retention_policy default_config)).
    + reflexivity.
    + vm_compute; reflexivity.
    + apply (bool_decide_unpack _). vm_compute. exact I.
  - split; [reflexivity|].
    apply (proj2 (retention_policy keep_all_config)).
    + reflexivity.
    + eexists. vm_compute. reflexivity.
Defined.

(** ** The table *)

Lemma table_replaced_wholesale_witness :
  let inp := reply [plane "b2" 3 4 500; plane "b2" 5 6 700] in
  cycle_ok keep_all_config (after_a1 keep_all_config) inp = true ∧
  current_aircraft (cycle keep_all_config (after_a1 keep_all_config) inp)
    !! KStr "b2" =
    Some {| e_lat := JNum 5%Z; e_lon := JNum 6%Z; e_alt := 700%Z;
            e_flight := "UAL12"; e_gs := JNum 250%Z |} ∧
  current_aircraft (cycle keep_all_config (after_a1 keep_all_config) inp)
    !! KStr "a1" = None ∧
  aircraft_tracks (cycle keep_all_config (after_a1 keep_all_config) inp)
    !! KStr "a1" = Some [(JNum 1%Z, JNum 2%Z)].
Proof.
  cbv zeta.
  assert (cycle_ok keep_all_config (after_a1 keep_all_config)
            (reply [plane "b2" 3 4 500; plane "b2" 5 6 700]) = true) as Hok
    by (vm_compute; reflexivity).
  split; [exact Hok|].
  destruct (table_replaced_wholesale keep_all_config _ _ Hok) as [Hlook _].
  split; [rewrite Hlook; vm_compute; reflexivity|].
  split; [rewrite Hlook; vm_compute; reflexivity|].
  vm_compute; reflexivity.
Defined.

(** ** Groundspeed *)

(** C7.  A record whose groundspeed is a JSON array is one whose
    groundspeed fails numeric conversion, yet it does not get the unknown
    marker: [float] raises a [TypeError], which the handler around it does
    not catch, the loop body raises and the cycle returns [False].  The
    groundspeed series gains nothing, neither a marker for this record nor
    the speed of the well-formed record before it. *)
Theorem unconvertible_groundspeed_aborts_cycle :
  let before := after_a1 default_config in
  let inp := reply [plane "a1" 5 6 300; bad_groundspeed "b2"] in
  gs_unknown (bad_groundspeed "b2") ∧
  observe default_config (stuck_clock 1) (bad_groundspeed "b2") = Raise ∧
  accepted default_config inp = None ∧
  cycle_ok default_config before inp = false ∧
  all_groundspeeds before = [Some 250%Z] ∧
  all_groundspeeds (cycle default_config before inp) = [Some 250%Z].
Proof.
  cbv zeta. split.
  - right; right. intros x. vm_compute. discriminate.
  - repeat split; vm_compute; reflexivity.
Qed.

Lemma unknown_groundspeed_marked_and_filtered_witness :
  let self := run default_config [reply [plane "a1" 1 2 300; anonymous 5 6 7]] in
  (∃ o, observe default_config (stuck_clock 1) (anonymous 5 6 7) = Next o ∧
        gs_unknown (anonymous 5 6 7) ∧ o_gs o = None) ∧
  all_groundspeeds self = [Some 250%Z; None] ∧
  update_hist_gs_plot self = Some [Some 250%Z] ∧
  (∀ g, g ∈ [Some 250%Z] → ∃ x, g = Some x ∧ g ∈ all_groundspeeds self).
Proof.
  cbv zeta.
  destruct (unknown_groundspeed_marked_and_filtered default_config)
    as (Hrec & Hseries & Hhist & _ & _).
  split; [|split; [|split]].
  - eexists. split; [vm_compute; reflexivity|].
    assert (gs_unknown (anonymous 5 6 7)) as Hu by (left; reflexivity).
    split; [exact Hu|].
    apply (Hrec (stuck_clock 1) (anonymous 5 6 7)); [vm_compute; reflexivity|].
    exact Hu.
  - rewrite Hseries. vm_compute. reflexivity.
  - vm_compute. reflexivity.
  - apply (Hhist _ [Some 250%Z]). vm_compute. reflexivity.
Defined.

(** ** The result of the method *)

(** A cycle that accepts nothing and a cycle that accepts one observation
    return the same value: no count can be read off the result. *)
Lemma result_carries_no_count :
  ¬ ∃ count_of : bool → nat,
      ∀ inp, cycle_ok default_config init inp = true →
        count_of (fetch_aircraft_data default_config inp.1 inp.2 init).2 =
          length (accepted_list default_config inp).
Proof.
  intros [count_of H].
  assert (count_of true = 0%nat) as H0.
  { apply (H (reply [])). vm_compute. reflexivity. }
  assert (count_of true = 1%nat) as H1.
  { apply (H (reply [plane "a1" 1 2 300])). vm_compute. reflexivity. }
  congruence.
Qed.

Lemma success_returns_flag_only_witness :
  let inp := reply [plane "a1" 1 2 300; bad_latitude "b2" ; plane "c3" 5 6 700] in
  cycle_ok default_config init inp = false ∧
  let inp' := reply [plane "a1" 1 2 300; anonymous 3 4 500] in
  accepted default_config inp' =
    Some [ {| o_lat := JNum 1%Z; o_lon := JNum 2%Z; o_alt := 300%Z;
              o_dist := 3%Z; o_gs := Some 250%Z; o_hex := KStr "a1";
              o_flight := "UAL12"; o_gs_raw := JNum 250%Z |};
           {| o_lat := JNum 3%Z; o_lon := JNum 4%Z; o_alt := 500%Z;
              o_dist := 7%Z; o_gs := None; o_hex := KStr "1762250000.0";
              o_flight := "N/A"; o_gs_raw := JStr "N/A" |} ] ∧
  ∃ self',
    fetch_aircraft_data default_config inp'.1 inp'.2 (after_a1 default_config)
      = (self', true) ∧
    length (all_distances self') = 3%nat ∧
    length (all_altitudes self') = 3%nat ∧
    length (all_groundspeeds self') = 3%nat.
Proof.
  cbv zeta. split; [vm_compute; reflexivity|].
  assert (accepted default_config (reply [plane "a1" 1 2 300; anonymous 3 4 500]) =
    Some [ {| o_lat := JNum 1%Z; o_lon := JNum 2%Z; o_alt := 300%Z;
              o_dist := 3%Z; o_gs := Some 250%Z; o_hex := KStr "a1";
              o_flight := "UAL12"; o_gs_raw := JNum 250%Z |};
           {| o_lat := JNum 3%Z; o_lon := JNum 4%Z; o_alt := 500%Z;
              o_dist := 7%Z; o_gs := None; o_hex := KStr "1762250000.0";
              o_flight := "N/A"; o_gs_raw := JStr "N/A" |} ]) as Ea
    by (vm_compute; reflexivity).
  split; [exact Ea|].
  destruct (success_returns_flag_only default_config default_settings
              init_ui None ∅ (after_a1 default_config) _ _ Ea)
    as (self' & Hf & _ & Hd & Ha & Hg).
  exists self'. split; [exact Hf|]. rewrite Hd, Ha, Hg.
  repeat split; vm_compute; reflexivity.
Defined.

(** ** Synthetic identities *)

(** Two records without [hex] in one snapshot, processed while the clock
    gives the same reading twice, get the same key: they share one track
    and one table entry. *)
Lemma synthetic_keys_collide :
  let inp := reply [anonymous 5 6 7; anonymous 8 9 10] in
  lacks_hex (anonymous 5 6 7) ∧ lacks_hex (anonymous 8 9 10) ∧
  o_hex <$> accepted_list default_config inp =
    [KStr "1762250000.0"; KStr "1762250000.0"] ∧
  aircraft_tracks (cycle default_config init inp) !! KStr "1762250000.0" =
    Some [(JNum 5%Z, JNum 6%Z); (JNum 8%Z, JNum 9%Z)] ∧
  size (current_aircraft (cycle default_config init inp)) = 1%nat.
Proof.
  cbv zeta. split; [|split].
  - eexists. split; reflexivity.
  - eexists. split; reflexivity.
  - repeat split; vm_compute; reflexivity.
Qed.

Lemma synthetic_key_is_clock_reading_witness :
  ∃ o1 o2,
    lacks_hex (anonymous 5 6 7) ∧ lacks_hex (anonymous 8 9 10) ∧
    observe default_config "1762250000.25" (anonymous 5 6 7) = Next o1 ∧
    observe default_config "1762250001.5" (anonymous 8 9 10) = Next o2 ∧
    o_hex o1 = KStr "1762250000.25" ∧ o_hex o2 = KStr "1762250001.5" ∧
    (o_hex o1 = o_hex o2 ↔ "1762250000.25" = "1762250001.5").
Proof.
  assert (lacks_hex (anonymous 5 6 7)) as H1 by (eexists; split; reflexivity).
  assert (lacks_hex (anonymous 8 9 10)) as H2 by (eexists; split; reflexivity).
  eexists _, _. split; [exact H1|]. split; [exact H2|].
  split; [vm_compute; reflexivity|]. split; [vm_compute; reflexivity|].
  apply (synthetic_key_is_clock_reading default_config
           "1762250000.25" "1762250001.5" (anonymous 5 6 7) (anonymous 8 9 10));
    [exact H1|exact H2|vm_compute; reflexivity..].
Defined.

(** ** The same identity twice in a snapshot *)

Lemma duplicate_identity_in_snapshot_witness :
  let inp := reply [plane "b2" 3 4 500; plane "a1" 5 6 300; plane "b2" 7 8 700] in
  let before := after_a1 default_config in
  let after := cycle default_config before inp in
  cycle_ok default_config before inp = true ∧
  (2 ≤ length (of_identity (KStr "b2") (accepted_list default_config inp)))%nat ∧
  aircraft_tracks after !! KStr "b2" =
    Some [(JNum 3%Z, JNum 4%Z); (JNum 7%Z, JNum 8%Z)] ∧
  length (all_distances after) = (length (all_distances before) + 3)%nat ∧
  e_lat <$> current_aircraft after !! KStr "b2" = Some (JNum 7%Z) ∧
  (size (current_aircraft after) < 3)%nat.
Proof.
  cbv zeta.
  assert (cycle_ok default_config (after_a1 default_config)
            (reply [plane "b2" 3 4 500; plane "a1" 5 6 300; plane "b2" 7 8 700])
          = true) as Hok by (vm_compute; reflexivity).
  assert (2 ≤ length (of_identity (KStr "b2")
                  (accepted_list default_config
                     (reply [plane "b2" 3 4 500; plane "a1" 5 6 300;
                             plane "b2" 7 8 700]))))%nat as Hdup
    by (vm_compute; lia).
  split; [exact Hok|]. split; [exact Hdup|].
  destruct (duplicate_identity_in_snapshot default_config _ _ _ Hok Hdup)
    as ((Ht & _ & _) & (Hd & _ & _) & (Htab & Hsize)).
  split; [rewrite Ht; vm_compute; reflexivity|].
  split; [rewrite Hd; vm_compute; reflexivity|].
  split; [rewrite Htab; vm_compute; reflexivity|].
  exact Hsize.
Defined.

(** ** Further properties of the cycle, on concrete runs *)

Lemma failed_cycle_keeps_table_and_series_witness :
  let before := after_a1 default_config in
  let inp := reply [plane "a1" 5 6 300; bad_altitude "b2"] in
  cycle_ok default_config before inp = false ∧
  current_aircraft (cycle default_config before inp) = current_aircraft before ∧
  all_distances (cycle default_config before inp) = all_distances before ∧
  all_altitudes (cycle default_config before inp) = all_altitudes before ∧
  all_groundspeeds (cycle default_config before inp) = all_groundspeeds before.
Proof.
  cbv zeta.
  assert (cycle_ok default_config (after_a1 default_config)
            (reply [plane "a1" 5 6 300; bad_altitude "b2"]) = false) as Hf
    by (vm_compute; reflexivity).
  split; [exact Hf|].
  exact (failed_cycle_keeps_table_and_series default_config _ _ Hf).
Defined.

Lemma unusable_payload_changes_nothing_witness :
  fetch_aircraft_data default_config (Some (JArr [plane "a1" 5 6 300]))
      stuck_clock (after_a1 default_config)
    = (after_a1 default_config, false) ∧
  fetch_aircraft_data default_config (Some (JObj [("aircraft", JNull)]))
      stuck_clock (after_a1 default_config)
    = (after_a1 default_config, false).
Proof.
  split; apply unusable_payload_changes_nothing; right; eexists;
    (split; [reflexivity|]).
  - left. intros items. discriminate.
  - right. eexists _, _. split; [reflexivity|]. split; [reflexivity|].
    by left.
Defined.

Lemma empty_snapshot_clears_table_witness :
  assoc "aircraft" [("now", JNum 1762250000%Z)] = None ∧
  fetch_aircraft_data default_config (Some (JObj [("now", JNum 1762250000%Z)]))
      stuck_clock (after_a1 default_config)
    = ({| all_distances := all_distances (after_a1 default_config);
          all_altitudes := all_altitudes (after_a1 default_config);
          all_groundspeeds := all_groundspeeds (after_a1 default_config);
          current_aircraft := ∅;
          aircraft_tracks := ∅ |}, true).
Proof.
  split; [reflexivity|].
  apply (empty_snapshot_clears_table default_config). left. reflexivity.
Defined.

Lemma ground_altitude_is_zero_witness :
  observe default_config "1762250000.0" (JObj grounded_items) ≠ Continue ∧
  ∃ o, observe default_config "1762250000.0" (JObj grounded_items) = Next o ∧
       Some 0%Z = Some (o_alt o).
Proof.
  destruct (ground_altitude_is_zero default_config "1762250000.0" grounded_items)
    as [Hne Hz]; [reflexivity..|].
  split; [exact Hne|]. eexists. split; [vm_compute; reflexivity|].
  apply Hz. vm_compute. reflexivity.
Defined.

Lemma altitude_prefers_barometric_witness :
  loop_body default_config "1762250000.0" (JObj null_baro_items) (fresh_locals, ∅)
    = Continue ∧
  ∃ o, observe default_config "1762250000.0" (JObj geometric_items) = Next o ∧
       py_float (JNum 900%Z) = FloatOk (o_alt o).
Proof.
  split.
  - apply (proj1 (altitude_prefers_barometric default_config _ null_baro_items)).
    reflexivity.
  - eexists. split; [vm_compute; reflexivity|].
    exact (proj2 (proj2 (altitude_prefers_barometric default_config
                           "1762250000.0" geometric_items))
             _ (JNum 900%Z) eq_refl eq_refl eq_refl).
Defined.

Lemma flight_label_stripped_witness :
  (∃ o, observe default_config "1762250000.0" (JObj plane_items) = Next o ∧
        o_flight o = strip "UAL12  " ∧ o_flight o = "UAL12") ∧
  (∃ o, observe default_config "1762250000.0" (JObj grounded_items) = Next o ∧
        o_flight o = "N/A") ∧
  (∀ o, observe default_config "1762250000.0" (JObj null_flight_items) ≠ Next o).
Proof.
  destruct (flight_label_stripped default_config "1762250000.0" plane_items)
    as (_ & Hs & _).
  destruct (flight_label_stripped default_config "1762250000.0" grounded_items)
    as (Hn & _ & _).
  destruct (flight_label_stripped default_config "1762250000.0" null_flight_items)
    as (_ & _ & Hr).
  split; [|split].
  - eexists. split; [vm_compute; reflexivity|].
    split; [apply Hs; vm_compute; reflexivity|vm_compute; reflexivity].
  - eexists. split; [vm_compute; reflexivity|].
    apply Hn; vm_compute; reflexivity.
  - apply (Hr JNull); [reflexivity|]. intros s. discriminate.
Defined.

Lemma table_and_tracks_agree_witness :
  let before := after_a1 default_config in
  let inp := reply [plane "a1" 5 6 300; plane "b2" 3 4 500] in
  cycle_ok default_config before inp = true ∧
  (0 ≤ MAX_TRACK_POINTS default_config)%Z ∧
  (∃ t, aircraft_tracks (cycle default_config before inp) !! KStr "a1" = Some t ∧
        last t = Some (JNum 5%Z, JNum 6%Z)) ∧
  dom (aircraft_tracks (cycle default_config before inp)) =
    dom (current_aircraft (cycle default_config before inp)).
Proof.
  cbv zeta.
  assert (cycle_ok default_config (after_a1 default_config)
            (reply [plane "a1" 5 6 300; plane "b2" 3 4 500]) = true) as Hok
    by (vm_compute; reflexivity).
  assert (0 ≤ MAX_TRACK_POINTS default_config)%Z as HN
    by (vm_compute; discriminate).
  split; [exact Hok|]. split; [exact HN|].
  destruct (table_and_tracks_agree default_config _ _ Hok HN) as [Hend Hdom].
  split; [|by apply Hdom].
  edestruct (Hend (KStr "a1")) as (t & Ht & Hl); [vm_compute; reflexivity|].
  exists t. split; [exact Ht|exact Hl].
Defined.

(** ** The window, on concrete runs *)

Lemma zoom_round_trip_witness :
  zoom_out (zoom_in init_ui) = init_ui ∧
  zoom_in (zoom_out init_ui) = init_ui ∧
  current_zoom (zoom_out (zoom_in zoomed_in)) = 35%Z.
Proof.
  destruct (zoom_round_trip init_ui) as (Hio & Hoi & _ & _).
  destruct (zoom_round_trip zoomed_in) as (_ & _ & Hcap & _).
  split; [apply Hio; vm_compute; by split|].
  split; [apply Hoi; vm_compute; by split|].
  apply Hcap. reflexivity.
Defined.

Lemma distance_plot_pairs_observations_witness :
  let inps := [reply [plane "a1" 1 2 300; anonymous 5 6 7]] in
  update_scatter_dist_plot (run default_config inps)
    = Some ([3%Z; 11%Z], [300%Z; 7%Z]) ∧
  length [3%Z; 11%Z] = length [300%Z; 7%Z] ∧
  zip [3%Z; 11%Z] [300%Z; 7%Z] =
    (λ o, (o_dist o, o_alt o)) <$> all_accepted default_config inps.
Proof.
  cbv zeta.
  assert (update_scatter_dist_plot
            (run default_config [reply [plane "a1" 1 2 300; anonymous 5 6 7]])
          = Some ([3%Z; 11%Z], [300%Z; 7%Z])) as Hp by (vm_compute; reflexivity).
  split; [exact Hp|].
  destruct (distance_plot_pairs_observations default_config
              [reply [plane "a1" 1 2 300; anonymous 5 6 7]])
    as (_ & _ & Hpairs & _).
  exact (Hpairs _ _ Hp).
Defined.

(** ** The map, on concrete runs *)

Lemma map_shows_every_aircraft_witness :
  let self := run default_config [reply [plane "a1" 1 2 300; plane "b2" 3 4 500]] in
  ∃ v, update_map default_config default_settings init_ui None ∅ self = Some v ∧
       ac_count v = 2%nat ∧ length (aircraft v) = 2%nat ∧
       zoom_start v = 19%Z.
Proof.
  cbv zeta.
  destruct (update_map default_config default_settings init_ui None ∅
              (run default_config [reply [plane "a1" 1 2 300; plane "b2" 3 4 500]]))
    as [v|] eqn:Ev; [|vm_compute in Ev; discriminate].
  exists v. split; [reflexivity|].
  destruct (map_shows_every_aircraft default_config default_settings
              _ _ _ _ _ Ev) as (Hc & Hl & Hz & _).
  rewrite Hl, Hc, Hz. repeat split; vm_compute; reflexivity.
Defined.

Lemma map_needs_text_keys_witness :
  update_map default_config default_settings init_ui None ∅
    (run default_config [reply [JObj null_hex_items]]) = None ∧
  validate_location (e_lat misplaced_entry, e_lon misplaced_entry) = false ∧
  update_map default_config default_settings labels_off None ∅ misplaced = None.
Proof.
  split; [|split; [reflexivity|]].
  - eapply (map_needs_text_keys default_config default_settings
              init_ui None ∅ _ KNone); [vm_compute; reflexivity|].
    left. intros s. discriminate.
  - apply (map_needs_text_keys default_config default_settings
             labels_off None ∅ misplaced (KStr "a1") misplaced_entry);
      [vm_compute; reflexivity|].
    right; left. reflexivity.
Defined.

Lemma non_text_identity_breaks_map_witness :
  let inp := reply [JObj null_hex_items] in
  cycle_ok default_config init inp = true ∧
  assoc "hex" null_hex_items = Some JNull ∧
  update_map default_config default_settings init_ui None ∅
    (cycle default_config init inp) = None.
Proof.
  cbv zeta.
  assert (cycle_ok default_config init (reply [JObj null_hex_items]) = true)
    as Hok by (vm_compute; reflexivity).
  split; [exact Hok|]. split; [reflexivity|].
  eapply (non_text_identity_breaks_map default_config default_settings
            init_ui None ∅ init _ (stuck_clock 0) null_hex_items JNull);
    [exact Hok| |vm_compute; reflexivity|reflexivity|by left].
  replace (accepted_list default_config (reply [JObj null_hex_items]))
    with [{| o_lat := JNum 1%Z; o_lon := JNum 2%Z; o_alt := 100%Z;
             o_dist := 3%Z; o_gs := None; o_hex := KNone;
             o_flight := "N/A"; o_gs_raw := JStr "N/A" |}]
    by (vm_compute; reflexivity).
  apply list_elem_of_here.
Defined.

Lemma track_lines_drawn_witness :
  (let self := run keep_all_config
                 [reply [plane "a1" 1 2 300]; reply [plane "a1" 5 6 300];
                  reply [plane "b2" 3 4 500]] in
   KEEP_ALL_TRACKS keep_all_config = 1%Z ∧
   ∃ v, update_map keep_all_config default_settings init_ui None ∅ self = Some v ∧
        [(JNum 1%Z, JNum 2%Z); (JNum 5%Z, JNum 6%Z)] ∈ persistent_lines v) ∧
  (let inp := reply [plane "a1" 5 6 300] in
   KEEP_ALL_TRACKS default_config = 0%Z ∧
   cycle_ok default_config (after_a1 default_config) inp = true ∧
   ∃ v d, update_map default_config default_settings init_ui None ∅
            (cycle default_config (after_a1 default_config) inp) = Some v ∧
          d ∈ aircraft v ∧
          drawn_line d = Some [(JNum 1%Z, JNum 2%Z); (JNum 5%Z, JNum 6%Z)] ∧
          last [(JNum 1%Z, JNum 2%Z); (JNum 5%Z, JNum 6%Z)] = Some (drawn_at d)).
Proof.
  cbv zeta. split.
  - split; [reflexivity|].
    destruct (update_map keep_all_config default_settings init_ui None ∅
                (run keep_all_config
                   [reply [plane "a1" 1 2 300]; reply [plane "a1" 5 6 300];
                    reply [plane "b2" 3 4 500]]))
      as [v|] eqn:Ev; [|vm_compute in Ev; discriminate].
    exists v. split; [reflexivity|].
    destruct (proj1 (track_lines_drawn keep_all_config default_settings
                       init_ui None ∅) eq_refl _ _ Ev) as [Hlines _].
    apply Hlines. split; [|cbn; lia].
    exists (KStr "a1"). vm_compute. reflexivity.
  - split; [reflexivity|].
    assert (cycle_ok default_config (after_a1 default_config)
              (reply [plane "a1" 5 6 300]) = true) as Hok
      by (vm_compute; reflexivity).
    split; [exact Hok|].
    destruct (update_map default_config default_settings init_ui None ∅
                (cycle default_config (after_a1 default_config)
                   (reply [plane "a1" 5 6 300])))
      as [v|] eqn:Ev; [|vm_compute in Ev; discriminate].
    exists v.
    destruct (proj2 (track_lines_drawn default_config default_settings
                       init_ui None ∅) eq_refl _ _ _ Hok Ev) as [_ Hdrawn].
    edestruct (Hdrawn (KStr "a1"))
      as (d & Hin & Hline & Hlast); [vm_compute; reflexivity|cbn; lia|].
    exists d. split; [reflexivity|]. split; [exact Hin|].
    split; [exact Hline|]. apply Hlast. vm_compute. discriminate.
Defined.

Lemma label_shows_known_speed_witness :
  float_of_str "N/A" = None ∧
  (∃ o, observe default_config "1762250000.0" (anonymous 5 6 7) = Next o ∧
        o_gs o = None ∧ gs_str (e_gs (o_entry o)) = Some None) ∧
  (∃ o, observe default_config "1762250000.0" (plane "a1" 1 2 300) = Next o ∧
        o_gs o = Some 250%Z ∧ gs_str (e_gs (o_entry o)) = Some (Some 250%Z)).
Proof.
  assert (float_of_str "N/A" = None) as Hna by reflexivity.
  split; [exact Hna|]. split.
  - eexists. split; [vm_compute; reflexivity|]. split; [reflexivity|].
    exact (label_shows_known_speed default_config "1762250000.0"
             (anonymous 5 6 7) _ Hna eq_refl).
  - eexists. split; [vm_compute; reflexivity|]. split; [reflexivity|].
    exact (label_shows_known_speed default_config "1762250000.0"
             (plane "a1" 1 2 300) _ Hna eq_refl).
Defined.

(** ** The airports, on a concrete file *)

Lemma loaded_airports_are_near_witness :
  let rows := [airport_row "KABC" "ABC" "large_airport" "40" "50";
               airport_row "KFAR" "FAR" "large_airport" "90" "50";
               airport_row "" "7XY" "small_airport" "10" "20"] in
  getAirportLocations default_config default_settings true false (Some rows)
    !! "KABC" = Some (40%Z, 50%Z, "towered") ∧
  getAirportLocations default_config default_settings true false (Some rows)
    !! "7XY" = Some (10%Z, 20%Z, "untowered") ∧
  getAirportLocations default_config default_settings true false (Some rows)
    !! "KFAR" = None ∧
  ∃ d, haversine (RECEIVER_LAT default_config, RECEIVER_LON default_config)
         (JNum 40%Z, JNum 50%Z) = Some d ∧
       num_le d (AIRPORT_DISTANCE default_settings) = true.
Proof.
  cbv zeta.
  assert (getAirportLocations default_config default_settings true false
            (Some [airport_row "KABC" "ABC" "large_airport" "40" "50";
                   airport_row "KFAR" "FAR" "large_airport" "90" "50";
                   airport_row "" "7XY" "small_airport" "10" "20"])
          !! "KABC" = Some (40%Z, 50%Z, "towered")) as Hk
    by (vm_compute; reflexivity).
  split; [exact Hk|]. split; [vm_compute; reflexivity|].
  split; [vm_compute; reflexivity|].
  destruct (loaded_airports_are_near default_config default_settings
              _ _ _ _ _ _ _ Hk)
    as (_ & _ & rows & row & _ & _ & _ & _ & _ & Hd & _).
  exact Hd.
Defined.

Lemma unreadable_row_is_skipped_witness :
  getAirportLocations default_config default_settings true false
      (Some ([airport_row "KABC" "ABC" "large_airport" "40" "50"] ++
             airport_row "KBAD" "BAD" "large_airport" "north" "50" ::
             [airport_row "" "7XY" "small_airport" "10" "20"])) =
    getAirportLocations default_config default_settings true false
      (Some ([airport_row "KABC" "ABC" "large_airport" "40" "50"] ++
             [airport_row "" "7XY" "small_airport" "10" "20"])).
Proof.
  apply unreadable_row_is_skipped. left.
  exists (Some "north"). split; reflexivity.
Defined.

Lemma missing_column_ends_loading_witness :
  getAirportLocations default_config default_settings true false
      (Some ([airport_row "KABC" "ABC" "large_airport" "40" "50"] ++
             no_latitude_row ::
             [airport_row "" "7XY" "small_airport" "10" "20"])) =
    getAirportLocations default_config default_settings true false
      (Some [airport_row "KABC" "ABC" "large_airport" "40" "50"]) ∧
  getAirportLocations default_config default_settings true false
      (Some (no_latitude_row ::
             [airport_row "" "7XY" "small_airport" "10" "20"])) = ∅.
Proof. apply missing_column_ends_loading. reflexivity. Defined.

Lemma last_row_of_a_code_wins_witness :
  getAirportLocations default_config default_settings false true
      (Some ([airport_row "KABC" "ABC" "large_airport" "40" "50"] ++
             airport_row "KABC" "ABC" "small_airport" "41" "51" ::
             [airport_row "" "7XY" "small_airport" "10" "20"]))
    !! "KABC" = Some (41%Z, 51%Z, "untowered").
Proof.
  assert (PLOT_AIRPORTS default_settings ≠ 0%Z) as Hp
    by (vm_compute; discriminate).
  assert (∀ r, r ∈ [airport_row "KABC" "ABC" "large_airport" "40" "50"] →
            airport_of_row default_config default_settings r ≠ RowError) as Hok
    by (intros r ->%list_elem_of_singleton; vm_compute; discriminate).
  assert (airport_of_row default_config default_settings
            (airport_row "KABC" "ABC" "small_airport" "41" "51")
          = RowKeep "KABC" (41%Z, 51%Z, "untowered")) as Hrow
    by (vm_compute; reflexivity).
  assert (∀ r a, r ∈ [airport_row "" "7XY" "small_airport" "10" "20"] →
            airport_of_row default_config default_settings r ≠ RowKeep "KABC" a)
    as Hno by (intros r a ->%list_elem_of_singleton; vm_compute; discriminate).
  exact (last_row_of_a_code_wins default_config default_settings false true
           _ _ _ _ _ Hp (or_intror eq_refl) Hok Hrow Hno).
Defined.

(** ** The world borders, on a concrete file *)

Lemma borders_are_a_sublist_witness :
  let features := [JObj (polygon "near" [(300, 300); (10, 20)]%Z);
                   JObj (polygon "far" [(300, 300); (400, 400)]%Z);
                   JObj [("type", JStr "Feature");
                         ("geometry", JObj [("type", JStr "Point");
                                            ("coordinates", point (1, 2)%Z)])]] in
  getWorldBorders default_config default_settings true false
      (Some (JObj (borders features)))
    = Some [JObj (polygon "near" [(300, 300); (10, 20)]%Z)] ∧
  [JObj (polygon "near" [(300, 300); (10, 20)]%Z)] `sublist_of` features.
Proof.
  cbv zeta.
  assert (getWorldBorders default_config default_settings true false
            (Some (JObj (borders
               [JObj (polygon "near" [(300, 300); (10, 20)]%Z);
                JObj (polygon "far" [(300, 300); (400, 400)]%Z);
                JObj [("type", JStr "Feature");
                      ("geometry", JObj [("type", JStr "Point");
                                         ("coordinates", point (1, 2)%Z)])]])))
          = Some [JObj (polygon "near" [(300, 300); (10, 20)]%Z)]) as Hk
    by (vm_compute; reflexivity).
  split; [exact Hk|].
  eapply (borders_are_a_sublist default_config default_settings true false);
    [|exact Hk]. reflexivity.
Defined.

Lemma kept_border_has_near_point_witness :
  let f := JObj (polygon "near" [(300, 300); (10, 20)]%Z) in
  getWorldBorders default_config default_settings true false
      (Some (JObj (borders [f]))) = Some [f] ∧
  ∃ coords coord c1 c0 d,
    sampled_points (JObj [("type", JStr "Polygon");
                          ("coordinates",
                           JArr [JArr (point <$> [(300, 300); (10, 20)]%Z)])])
      = Next coords ∧
    coord ∈ coords ∧
    py_index coord 1 = Some c1 ∧ py_index coord 0 = Some c0 ∧
    haversine (RECEIVER_LAT default_config, RECEIVER_LON default_config) (c1, c0)
      = Some d ∧
    num_le d (WORLD_BORDER_DISTANCE default_settings) = true.
Proof.
  cbv zeta.
  assert (getWorldBorders default_config default_settings true false
            (Some (JObj (borders [JObj (polygon "near" [(300, 300); (10, 20)]%Z)])))
          = Some [JObj (polygon "near" [(300, 300); (10, 20)]%Z)]) as Hk
    by (vm_compute; reflexivity).
  split; [exact Hk|].
  destruct (kept_border_has_near_point default_config default_settings
              _ _ _ _ (JObj (polygon "near" [(300, 300); (10, 20)]%Z)) Hk)
    as (g & ty & coords & coord & c1 & c0 & d & Hg & _ & _ & Hs & _ & Hin
        & H1 & H0 & Hd & Hle); [apply list_elem_of_here|].
  cbn in Hg. injection Hg as <-.
  by exists coords, coord, c1, c0, d.
Defined.

Lemma polygon_sampling_stops_at_500_witness :
  filter_features default_config default_settings
      [JObj (polygon "far" (replicate 500 (300, 300)%Z ++ [(10, 20)%Z]))] = Some [] ∧
  filter_features default_config default_settings
      [JObj (polygon "near" (replicate 499 (300, 300)%Z ++ [(10, 20)%Z]))]
    = Some [JObj (polygon "near" (replicate 499 (300, 300)%Z ++ [(10, 20)%Z]))].
Proof.
  split.
  - eapply eq_trans.
    + eapply (polygon_sampling_stops_at_500 default_config default_settings);
        reflexivity.
    + vm_compute. reflexivity.
  - eapply eq_trans.
    + eapply (polygon_sampling_stops_at_500 default_config default_settings);
        reflexivity.
    + vm_compute. reflexivity.
Defined.

Lemma broken_feature_loses_all_borders_witness :
  getWorldBorders default_config default_settings true false
      (Some (JObj (borders
         ([JObj (polygon "near" [(300, 300); (10, 20)]%Z)] ++
          null_geometry :: [JObj (polygon "far" [(300, 300); (400, 400)]%Z)]))))
    = None.
Proof.
  eapply broken_feature_loses_all_borders; [reflexivity|].
  right; left. eexists. split; reflexivity.
Defined.
